(** * AIPSHS: the sleep-hygiene backend (app.py), embedded in Rocq

    The development follows app.py function by function.  Python values
    are modelled as the interpreter has them:

    - [int] is [Z]; [float] is an IEEE-754 binary64 value, given by the
      [spec_float] operations of the standard library (round to nearest,
      ties to even);
    - [str] is [string], each character read as one code point below 256
      (text with code points beyond that range is outside the model);
    - an exception is a value of [py_exception], threaded through the
      [result] monad;
    - a dictionary with a fixed set of keys is a record, its values at
      the types the data model gives them.

    Layout: [Module Py] models the builtins app.py calls (CPython 3.11);
    [Module App] is app.py itself; then come the vocabulary in which the
    properties are stated, the lemmas on rounding, on the metrics, on the
    time-offset helper and on the recommendation lists, the properties
    C1-C10 of the specification, and last further properties X1-X22 read
    off the code. *)

From Stdlib Require Import ZArith Lia List Bool String Ascii SpecFloat DecimalString.
Import ListNotations.

Local Open Scope Z_scope.

(* ===================================================================== *)
(** ** Python builtins used by app.py *)
(* ===================================================================== *)

Module Py.

(** Exceptions app.py can meet on well-typed input. *)
Inductive py_exception : Type :=
  | ValueError
  | IndexError
  | ZeroDivisionError
  | OverflowError.

Inductive result (A : Type) : Type :=
  | Ok (a : A)
  | Raise (e : py_exception).

Arguments Ok {A} a.
Arguments Raise {A} e.

Definition bind {A B : Type} (c : result A) (k : A -> result B) : result B :=
  match c with
  | Ok a => k a
  | Raise e => Raise e
  end.

Declare Scope py_scope.
Delimit Scope py_scope with py.
Notation "x <- c ;; k" := (bind c (fun x => k))
  (at level 61, c at next level, right associativity) : py_scope.

(* --------------------------------------------------------------------- *)
(** *** Strings *)

Definition code (c : ascii) : Z := Z.of_N (N_of_ascii c).

Definition chr (n : Z) : ascii := ascii_of_N (Z.to_N n).

Definition is_digit (c : ascii) : bool := (48 <=? code c) && (code c <=? 57).

Definition digit_value (c : ascii) : Z := code c - 48.

(** Characters [int()] skips around a literal: the C-locale blanks, and
    the two non-ASCII blanks below 256 (NEL and NBSP), which CPython turns
    into a space before parsing.  The separators 0x1C-0x1F are not
    skipped. *)
Definition is_int_space (c : ascii) : bool :=
  ((9 <=? code c) && (code c <=? 13)) || (code c =? 32)
  || (code c =? 133) || (code c =? 160).

(** [s.split(sep)] for a one-character separator: never empty. *)
Fixpoint split (sep : ascii) (s : string) : list string :=
  match s with
  | EmptyString => [EmptyString]
  | String c r =>
      if Ascii.eqb c sep then EmptyString :: split sep r
      else match split sep r with
           | h :: t => String c h :: t
           | [] => [String c EmptyString]
           end
  end.

(** [l[i]] on a list. *)
Definition index {A : Type} (l : list A) (i : nat) : result A :=
  match nth_error l i with
  | Some a => Ok a
  | None => Raise IndexError
  end.

Fixpoint skip_spaces (s : string) : string :=
  match s with
  | String c r => if is_int_space c then skip_spaces r else s
  | EmptyString => s
  end.

(** The digit run of an integer literal: digits with single underscores
    between them.  Returns the value, the number of digits and the rest. *)
Fixpoint scan_digits (s : string) (prev_underscore : bool) (acc : Z) (n : Z)
  : option (Z * Z * string) :=
  match s with
  | String c r =>
      if is_digit c then scan_digits r false (10 * acc + digit_value c) (n + 1)
      else if Ascii.eqb c "_"%char then
        if prev_underscore then None else scan_digits r true acc n
      else if prev_underscore then None else Some (acc, n, s)
  | EmptyString => if prev_underscore then None else Some (acc, n, s)
  end.

(** Default of [sys.set_int_max_str_digits] (CPython 3.11 and later). *)
Definition int_max_str_digits : Z := 4300.

Definition int_of_unsigned (s : string) : result Z :=
  match s with
  | String c _ =>
      if Ascii.eqb c "_"%char then Raise ValueError
      else
        match scan_digits s false 0 0 with
        | Some (v, n, rest) =>
            if n =? 0 then Raise ValueError
            else match skip_spaces rest with
                 | EmptyString =>
                     if int_max_str_digits <? n then Raise ValueError else Ok v
                 | String _ _ => Raise ValueError
                 end
        | None => Raise ValueError
        end
  | EmptyString => Raise ValueError
  end.

(** [int(s)] for a string, base 10. *)
Definition int (s : string) : result Z :=
  match skip_spaces s with
  | String c r =>
      if Ascii.eqb c "+"%char then int_of_unsigned r
      else if Ascii.eqb c "-"%char then
        bind (int_of_unsigned r) (fun v => Ok (- v))
      else int_of_unsigned (String c r)
  | EmptyString => Raise ValueError
  end.

(** [str.lower] on code points below 256: A-Z and the accented capitals
    0xC0-0xDE (0xD7, the multiplication sign, apart) move up by 32. *)
Definition lower_char (c : ascii) : ascii :=
  let n := code c in
  if ((65 <=? n) && (n <=? 90))
     || ((192 <=? n) && (n <=? 222) && negb (n =? 215))
  then chr (n + 32) else c.

Fixpoint lower (s : string) : string :=
  match s with
  | EmptyString => EmptyString
  | String c r => String (lower_char c) (lower r)
  end.

(** [format(z, "02d")]: decimal, a minus sign for negatives, zero-padded
    to two characters. *)
Definition decimal (z : Z) : string := NilZero.string_of_uint (N.to_uint (Z.to_N (Z.abs z))).

Definition format_02d (z : Z) : string :=
  let d := decimal z in
  if z <? 0 then String "-"%char d
  else if (Z.of_nat (String.length d) <? 2) then String "0"%char d
  else d.

(* --------------------------------------------------------------------- *)
(** *** Numbers: [int] and [float] *)

(** Binary64 values.  [spec_float] also holds significands that are not
    in canonical form; the operations below return canonical ones. *)
Definition float : Type := spec_float.

Definition prec : Z := 53.
Definition emax : Z := 1024.

Inductive py_num : Type :=
  | PyInt (z : Z)
  | PyFloat (f : float).

(** An integer as an unrounded significand with exponent 0. *)
Definition exact_of_int (z : Z) : float :=
  match z with
  | Z0 => S754_zero false
  | Zpos p => S754_finite false p 0
  | Zneg p => S754_finite true p 0
  end.

(** [float(z)]: the nearest binary64 value, [OverflowError] beyond the
    largest one. *)
Definition float_of_int (z : Z) : result float :=
  match binary_normalize prec emax z 0 false with
  | S754_infinity _ => Raise OverflowError
  | f => Ok f
  end.

Definition to_float (a : py_num) : result float :=
  match a with
  | PyInt z => float_of_int z
  | PyFloat f => Ok f
  end.

Definition is_zero (f : float) : bool :=
  match f with
  | S754_zero _ => true
  | _ => false
  end.

(** [a / b] on two ints: the exact quotient, rounded once. *)
Definition int_true_divide (a b : Z) : result float :=
  if b =? 0 then Raise ZeroDivisionError
  else match SFdiv prec emax (exact_of_int a) (exact_of_int b) with
       | S754_infinity _ => Raise OverflowError
       | f => Ok f
       end.

(** [a / b]: both operands are converted before the divisor is tested. *)
Definition true_divide (a b : py_num) : result py_num :=
  match a, b with
  | PyInt x, PyInt y => bind (int_true_divide x y) (fun f => Ok (PyFloat f))
  | _, _ =>
      bind (to_float a) (fun fa =>
      bind (to_float b) (fun fb =>
      if is_zero fb then Raise ZeroDivisionError
      else Ok (PyFloat (SFdiv prec emax fa fb))))
  end.

Definition sub (a b : py_num) : result py_num :=
  match a, b with
  | PyInt x, PyInt y => Ok (PyInt (x - y))
  | _, _ =>
      bind (to_float a) (fun fa =>
      bind (to_float b) (fun fb =>
      Ok (PyFloat (SFsub prec emax fa fb))))
  end.

Definition mul (a b : py_num) : result py_num :=
  match a, b with
  | PyInt x, PyInt y => Ok (PyInt (x * y))
  | _, _ =>
      bind (to_float a) (fun fa =>
      bind (to_float b) (fun fb =>
      Ok (PyFloat (SFmul prec emax fa fb))))
  end.

(** Comparison of a float with an int is exact: no conversion of the int. *)
Definition compare_float_int (f : float) (z : Z) : option comparison :=
  match f with
  | S754_nan => None
  | S754_infinity s => Some (if s then Lt else Gt)
  | S754_zero _ => Some (0 ?= z)
  | S754_finite s m e =>
      let v := cond_Zopp s (Zpos m) in
      Some (if 0 <=? e then v * 2 ^ e ?= z else v ?= z * 2 ^ (- e))
  end.

Definition compare (a b : py_num) : option comparison :=
  match a, b with
  | PyInt x, PyInt y => Some (x ?= y)
  | PyFloat f, PyFloat g => SFcompare f g
  | PyFloat f, PyInt y => compare_float_int f y
  | PyInt x, PyFloat g => option_map CompOpp (compare_float_int g x)
  end.

(** [a < b] and [a <= b]; both are false when a NaN is involved. *)
Definition lt (a b : py_num) : bool :=
  match compare a b with
  | Some Lt => true
  | _ => false
  end.

Definition le (a b : py_num) : bool :=
  match compare a b with
  | Some (Lt | Eq) => true
  | _ => false
  end.

(** [max(a, b)] keeps [a] unless [b > a]; [min(a, b)] keeps [a] unless
    [b < a]. *)
Definition max (a b : py_num) : py_num := if lt a b then b else a.

Definition min (a b : py_num) : py_num := if lt b a then b else a.

(** [round(f)] with one argument: the nearest integer, ties to even. *)
Definition round (f : float) : result Z :=
  match f with
  | S754_nan => Raise ValueError
  | S754_infinity _ => Raise OverflowError
  | S754_zero _ => Ok 0
  | S754_finite s m e =>
      if 0 <=? e then Ok (cond_Zopp s (Zpos m * 2 ^ e))
      else
        let d := 2 ^ (- e) in
        let q := Zpos m / d in
        let r := Zpos m mod d in
        let up := match 2 * r ?= d with
                  | Lt => false
                  | Gt => true
                  | Eq => Z.odd q
                  end in
        Ok (cond_Zopp s (if up then q + 1 else q))
  end.

End Py.

(* ===================================================================== *)
(** ** app.py *)
(* ===================================================================== *)

Module App.

Import Py.
Local Open Scope string_scope.
Local Open Scope list_scope.
Local Open Scope Z_scope.
Local Open Scope py_scope.

(** The body of an HTTP answer is paired with its status code;
    [jsonify(...)] alone answers 200. *)
Record response (A : Type) : Type := mk_response { status : Z; payload : A }.

Arguments mk_response {A} status payload.
Arguments status {A} r.
Arguments payload {A} r.

(** The [error] entry of a failure body: a literal of app.py, or [str(e)]
    of the exception caught at the request boundary. *)
Inductive error_text : Type :=
  | Message (s : string)
  | OfException (e : py_exception).

(* --------------------------------------------------------------------- *)
(** *** Aggregator: /api/sleep-insights/<int:age>/<gender> *)

(** One row of the CSV, by column. *)
Record sleep_record : Type := {
  Age : Z;
  Gender : string;
  Total_Sleep_Hours : float;
  Sleep_Quality : float;
  Productivity_Score : float;
  Mood_Score : float;
  Stress_Level : float
}.

Record insights : Type := {
  average_sleep_hours : float;
  average_sleep_quality : float;
  average_productivity : float;
  average_mood : float;
  average_stress : float;
  sample_size : Z;
  recommendations : list string
}.

Inductive insights_body : Type :=
  | InsightsFailure (error : error_text)
  | InsightsSuccess (i : insights).

Section Aggregator.

(** pandas' [Series.mean] and the two-argument [round] on its result
    belong to the libraries, not to app.py: they are parameters. *)
Variable mean : list float -> float.
Variable round_to : float -> Z -> float.

Definition generate_recommendations
    (df : list sleep_record) (age : Z) (gender : string) : list string :=
  let recommendations := [] in
  let avg_sleep := mean (map Total_Sleep_Hours df) in
  let avg_quality := mean (map Sleep_Quality df) in
  let avg_productivity := mean (map Productivity_Score df) in
  (* Sleep duration recommendations *)
  let recommendations :=
    if lt (PyFloat avg_sleep) (PyInt 7) then
      recommendations ++ ["Consider aiming for 7-9 hours of sleep per night for optimal health"]
    else if lt (PyInt 9) (PyFloat avg_sleep) then
      recommendations ++ ["While longer sleep can be beneficial, ensure it's quality sleep"]
    else recommendations in
  (* Sleep quality recommendations *)
  let recommendations :=
    if lt (PyFloat avg_quality) (PyInt 7) then
      (recommendations ++ ["Focus on improving sleep environment: cool, dark, quiet bedroom"])
        ++ ["Establish a consistent bedtime routine"]
    else recommendations in
  (* Productivity correlation *)
  let recommendations :=
    if lt (PyInt 85) (PyFloat avg_productivity) then
      recommendations ++ ["Your sleep patterns are supporting high productivity - maintain consistency"]
    else if lt (PyFloat avg_productivity) (PyInt 75) then
      recommendations ++ ["Poor sleep may be affecting productivity - prioritize sleep hygiene"]
    else recommendations in
  (* Age-specific recommendations *)
  let recommendations :=
    if age <? 30 then
      recommendations ++ ["Young adults often need 7-9 hours of sleep for cognitive performance"]
    else if 50 <? age then
      recommendations ++ ["Older adults may need consistent sleep timing for better health"]
    else recommendations in
  recommendations.

(** [df[(df['Age'] >= age - age_range) & (df['Age'] <= age + age_range)]] *)
Definition filter_age (df : list sleep_record) (age : Z) : list sleep_record :=
  let age_range := 5 in
  filter (fun r => (age - age_range <=? Age r) && (Age r <=? age + age_range)) df.

(** [age_filtered[age_filtered['Gender'].str.lower() == gender.lower()]] *)
Definition filter_gender (age_filtered : list sleep_record) (gender : string)
  : list sleep_record :=
  filter (fun r => String.eqb (lower (Gender r)) (lower gender)) age_filtered.

(** The rows the insights are computed from. *)
Definition select_records (df : list sleep_record) (age : Z) (gender : string)
  : list sleep_record :=
  let age_filtered := filter_age df age in
  if negb (String.eqb (lower gender) "all") then filter_gender age_filtered gender
  else age_filtered.

(** [csv] is [None] when the file at SLEEP_DATA_PATH does not exist. *)
Definition get_personalized_insights
    (csv : option (list sleep_record)) (age : Z) (gender : string)
  : response insights_body :=
  match csv with
  | None =>
      mk_response 404 (InsightsFailure (Message "Sleep data file not found"))
  | Some df =>
      let age_filtered := select_records df age gender in
      if Z.of_nat (List.length age_filtered) =? 0 then
        mk_response 404
          (InsightsFailure (Message "No data found for the specified criteria"))
      else
        mk_response 200 (InsightsSuccess {|
          average_sleep_hours := round_to (mean (map Total_Sleep_Hours age_filtered)) 2;
          average_sleep_quality := round_to (mean (map Sleep_Quality age_filtered)) 2;
          average_productivity := round_to (mean (map Productivity_Score age_filtered)) 2;
          average_mood := round_to (mean (map Mood_Score age_filtered)) 2;
          average_stress := round_to (mean (map Stress_Level age_filtered)) 2;
          sample_size := Z.of_nat (List.length age_filtered);
          recommendations := generate_recommendations age_filtered age gender
        |})
  end.

End Aggregator.

(* --------------------------------------------------------------------- *)
(** *** Profile evaluator: /api/sleep-profile *)

Record profile : Type := {
  bedtime : string;
  wakeTime : string;
  sleepGoal : py_num;
  lifestyle : string;
  sleepIssues : list string
}.

Record analysis : Type := {
  sleep_duration : Z;
  sleep_debt : py_num;
  sleep_efficiency : py_num;
  circadian_alignment : Z
}.

Record recommendation : Type := {
  id : string;
  title : string;
  description : string;
  time : string;
  priority : string;
  category : string
}.

Definition calculate_circadian_alignment (bedtime_hour wake_hour : Z) : result Z :=
  (* Optimal sleep window is typically 10 PM - 6 AM *)
  let optimal_bedtime := 22 in
  let optimal_wake := 6 in
  let bedtime_score := Z.max 0 (100 - Z.abs (bedtime_hour - optimal_bedtime) * 10) in
  let wake_score := Z.max 0 (100 - Z.abs (wake_hour - optimal_wake) * 10) in
  half <- int_true_divide (bedtime_score + wake_score) 2 ;;
  round half.

Definition calculate_sleep_metrics (p : profile) : result analysis :=
  let sleep_goal := sleepGoal p in
  (* Parse times *)
  h0 <- index (split ":" (bedtime p)) 0 ;;
  bedtime_hour <- int h0 ;;
  w0 <- index (split ":" (wakeTime p)) 0 ;;
  wake_hour <- int w0 ;;
  (* Calculate sleep duration *)
  let sleep_duration :=
    if wake_hour <? bedtime_hour then (24 - bedtime_hour) + wake_hour
    else wake_hour - bedtime_hour in
  (* Calculate sleep debt *)
  diff <- sub sleep_goal (PyInt sleep_duration) ;;
  let sleep_debt := max (PyInt 0) diff in
  ratio <- true_divide (PyInt sleep_duration) sleep_goal ;;
  percent <- mul ratio (PyInt 100) ;;
  alignment <- calculate_circadian_alignment bedtime_hour wake_hour ;;
  Ok {| sleep_duration := sleep_duration;
        sleep_debt := sleep_debt;
        sleep_efficiency := min (PyInt 100) percent;
        circadian_alignment := alignment |}.

(** [while hour >= 24: hour -= 24], at most [fuel] iterations. *)
Fixpoint while_hour_ge_24 (fuel : nat) (hour : Z) : Z :=
  match fuel with
  | O => hour
  | S fuel' => if 24 <=? hour then while_hour_ge_24 fuel' (hour - 24) else hour
  end.

(** [while hour < 0: hour += 24], at most [fuel] iterations. *)
Fixpoint while_hour_lt_0 (fuel : nat) (hour : Z) : Z :=
  match fuel with
  | O => hour
  | S fuel' => if hour <? 0 then while_hour_lt_0 fuel' (hour + 24) else hour
  end.

(** Both loops of [calculate_time_offset]; each iteration moves [hour] by
    24 towards the interval it leaves at, so the absolute value of the
    starting hour bounds the number of iterations. *)
Definition handle_hour_overflow (hour : Z) : Z :=
  let hour := while_hour_ge_24 (Z.to_nat hour) hour in
  while_hour_lt_0 (Z.to_nat (- hour)) hour.

(** [f"{hour:02d}:{minute:02d}"] *)
Definition format_time (hour minute : Z) : string :=
  (format_02d hour ++ ":" ++ format_02d minute)%string.

Definition calculate_time_offset
    (base_time : string) (hour_offset minute_offset : Z) : result string :=
  h0 <- index (split ":" base_time) 0 ;;
  h <- int h0 ;;
  let hour := h + hour_offset in
  m0 <- index (split ":" base_time) 1 ;;
  m <- int m0 ;;
  let minute := m + minute_offset in
  (* Handle hour overflow *)
  let hour := handle_hour_overflow hour in
  (* Handle minute overflow *)
  let '(hour, minute) :=
    if 60 <=? minute then (hour + 1, minute - 60) else (hour, minute) in
  let '(hour, minute) :=
    if minute <? 0 then (hour - 1, minute + 60) else (hour, minute) in
  Ok (format_time hour minute).

(** The description of the thermostat entry: its two characters before
    the F are the code points 194 and 176, as in the source file. *)
Definition temperature_description : string :=
  ("Set bedroom to 65-68" ++ String (chr 194) (String (chr 176) "F"))%string.

(** The loop [for issue in profile['sleepIssues']], appending to
    [recommendations]. *)
Fixpoint issue_specific (p : profile) (issues : list string)
    (recommendations : list recommendation) : result (list recommendation) :=
  match issues with
  | [] => Ok recommendations
  | issue :: rest =>
      if String.eqb issue "anxiety" then
        t <- calculate_time_offset (bedtime p) (-1) 30 ;;
        issue_specific p rest (recommendations ++ [{|
          id := "anxiety-relief";
          title := "Anxiety Management";
          description := "Practice deep breathing or meditation";
          time := t;
          priority := "high";
          category := "mental-health" |}])
      else if String.eqb issue "temperature" then
        t <- calculate_time_offset (bedtime p) (-1) 0 ;;
        issue_specific p rest (recommendations ++ [{|
          id := "temperature-control";
          title := "Temperature Optimization";
          description := temperature_description;
          time := t;
          priority := "high";
          category := "environment" |}])
      else issue_specific p rest recommendations
  end.

Definition generate_ai_recommendations (p : profile) (a : analysis)
  : result (list recommendation) :=
  let recommendations := [] in
  (* Base recommendations *)
  t <- calculate_time_offset (bedtime p) (-2) 0 ;;
  let recommendations := recommendations ++ [{|
    id := "wind-down";
    title := "Wind-down Routine";
    description := "Begin relaxing activities 1-2 hours before bed";
    time := t;
    priority := "high";
    category := "routine" |}] in
  t <- calculate_time_offset (bedtime p) (-1) 0 ;;
  let recommendations := recommendations ++ [{|
    id := "screen-cutoff";
    title := "Digital Sunset";
    description := "Turn off screens and blue light devices";
    time := t;
    priority := "high";
    category := "environment" |}] in
  (* Issue-specific recommendations *)
  issue_specific p (sleepIssues p) recommendations.

(** The decoded JSON object of the request: each of the five keys is
    present or not, with a value of the type section 3 of the
    specification gives it; [other_keys] tells whether any further key
    is present. *)
Record request_data : Type := {
  get_bedtime : option string;
  get_wakeTime : option string;
  get_sleepGoal : option py_num;
  get_lifestyle : option string;
  get_sleepIssues : option (list string);
  other_keys : bool
}.

(** [not data]: the object has no key at all. *)
Definition is_empty (data : request_data) : bool :=
  match get_bedtime data, get_wakeTime data, get_sleepGoal data,
        get_lifestyle data, get_sleepIssues data with
  | None, None, None, None, None => negb (other_keys data)
  | _, _, _, _, _ => false
  end.

Definition get {A : Type} (field : option A) (default : A) : A :=
  match field with
  | Some v => v
  | None => default
  end.

Inductive profile_body : Type :=
  | ProfileFailure (error : error_text)
  | ProfileSuccess (p : profile) (a : analysis) (recommendations : list recommendation).

(** Extract profile data *)
Definition extract_profile (data : request_data) : profile :=
  {| bedtime := get (get_bedtime data) "22:00";
     wakeTime := get (get_wakeTime data) "06:00";
     sleepGoal := get (get_sleepGoal data) (PyInt 8);
     lifestyle := get (get_lifestyle data) "moderate";
     sleepIssues := get (get_sleepIssues data) [] |}.

Definition analyze_sleep_profile (data : request_data) : response profile_body :=
  if is_empty data then
    mk_response 400 (ProfileFailure (Message "No profile data provided"))
  else
    let p := extract_profile data in
    match (a <- calculate_sleep_metrics p ;;
           recs <- generate_ai_recommendations p a ;;
           Ok (a, recs)) with
    | Ok (a, recs) => mk_response 200 (ProfileSuccess p a recs)
    | Raise e => mk_response 500 (ProfileFailure (OfException e))
    end.

End App.

(* ===================================================================== *)
(** ** Vocabulary of the specification *)
(* ===================================================================== *)

Import Py App.
Local Open Scope string_scope.
Local Open Scope list_scope.
Local Open Scope Z_scope.

(** [int(s.split(':')[0])] and [int(s.split(':')[1])]: the two fields
    app.py reads from a time string. *)
Definition hour_field (s : string) : result Z :=
  bind (index (split ":" s) 0) int.

Definition minute_field (s : string) : result Z :=
  bind (index (split ":" s) 1) int.

(** The hour difference of section 4.2. *)
Definition hour_difference (bedtime_hour wake_hour : Z) : Z :=
  if wake_hour <? bedtime_hour then (24 - bedtime_hour) + wake_hour
  else wake_hour - bedtime_hour.

(** A number that is zero: the int 0, or a float zero of either sign. *)
Definition is_zero_num (g : py_num) : bool :=
  match g with
  | PyInt z => z =? 0
  | PyFloat f => is_zero f
  end.

(** The wall-clock time [k] minutes before [h:m], as HH:MM. *)
Definition clock_minus (h m k : Z) : string :=
  let t := (60 * h + m - k) mod 1440 in
  format_time (t / 60) (t mod 60).

(** The arithmetic of [calculate_time_offset] on parsed fields. *)
Definition offset_fields (h m hour_offset minute_offset : Z) : string :=
  let hour := handle_hour_overflow (h + hour_offset) in
  let minute := m + minute_offset in
  let '(hour, minute) :=
    if 60 <=? minute then (hour + 1, minute - 60) else (hour, minute) in
  let '(hour, minute) :=
    if minute <? 0 then (hour - 1, minute + 60) else (hour, minute) in
  format_time hour minute.

(** The entries of the profile evaluator's list, by their time. *)
Definition wind_down (t : string) : recommendation :=
  {| id := "wind-down";
     title := "Wind-down Routine";
     description := "Begin relaxing activities 1-2 hours before bed";
     time := t;
     priority := "high";
     category := "routine" |}.

Definition screen_cutoff (t : string) : recommendation :=
  {| id := "screen-cutoff";
     title := "Digital Sunset";
     description := "Turn off screens and blue light devices";
     time := t;
     priority := "high";
     category := "environment" |}.

Definition anxiety_relief (t : string) : recommendation :=
  {| id := "anxiety-relief";
     title := "Anxiety Management";
     description := "Practice deep breathing or meditation";
     time := t;
     priority := "high";
     category := "mental-health" |}.

Definition temperature_control (t : string) : recommendation :=
  {| id := "temperature-control";
     title := "Temperature Optimization";
     description := temperature_description;
     time := t;
     priority := "high";
     category := "environment" |}.

(** What one issue tag contributes, given the two times. *)
Definition issue_entry (t_anxiety t_temperature : string) (issue : string)
  : list recommendation :=
  if String.eqb issue "anxiety" then [anxiety_relief t_anxiety]
  else if String.eqb issue "temperature" then [temperature_control t_temperature]
  else [].

Definition known_issue (issue : string) : bool :=
  String.eqb issue "anxiety" || String.eqb issue "temperature".

Definition with_issues (p : profile) (issues : list string) : profile :=
  {| bedtime := bedtime p;
     wakeTime := wakeTime p;
     sleepGoal := sleepGoal p;
     lifestyle := lifestyle p;
     sleepIssues := issues |}.

Definition with_wakeTime (p : profile) (w : string) : profile :=
  {| bedtime := bedtime p;
     wakeTime := w;
     sleepGoal := sleepGoal p;
     lifestyle := lifestyle p;
     sleepIssues := sleepIssues p |}.

(** A status that blames the client. *)
Definition client_fault (code : Z) : Prop := 400 <= code <= 499.

(** The filter of section 4.1, in one predicate. *)
Definition matches_criteria (age : Z) (gender : string) (r : sleep_record) : bool :=
  ((age - 5 <=? Age r) && (Age r <=? age + 5))
  && (String.eqb (lower gender) "all"
      || String.eqb (lower (Gender r)) (lower gender)).

(** The rule table of section 4.1, in its order. *)
Definition rule_sleep_short : string :=
  "Consider aiming for 7-9 hours of sleep per night for optimal health".
Definition rule_sleep_long : string :=
  "While longer sleep can be beneficial, ensure it's quality sleep".
Definition rule_quality_environment : string :=
  "Focus on improving sleep environment: cool, dark, quiet bedroom".
Definition rule_quality_routine : string :=
  "Establish a consistent bedtime routine".
Definition rule_productivity_high : string :=
  "Your sleep patterns are supporting high productivity - maintain consistency".
Definition rule_productivity_low : string :=
  "Poor sleep may be affecting productivity - prioritize sleep hygiene".
Definition rule_age_young : string :=
  "Young adults often need 7-9 hours of sleep for cognitive performance".
Definition rule_age_older : string :=
  "Older adults may need consistent sleep timing for better health".

Definition rule_table : list string :=
  [rule_sleep_short; rule_sleep_long;
   rule_quality_environment; rule_quality_routine;
   rule_productivity_high; rule_productivity_low;
   rule_age_young; rule_age_older].

(** [l] keeps some entries of [t], in the order of [t]. *)
Fixpoint subsequence {A : Type} (l t : list A) : Prop :=
  match l, t with
  | [], _ => True
  | _ :: _, [] => False
  | x :: l', y :: t' => (x = y /\ subsequence l' t') \/ subsequence l t'
  end.

(** Floats that are not negative: zeros of either sign, positive finite
    values, plus infinity; the NaN, which compares false with everything,
    is let through. *)
Definition nonneg_float (f : float) : Prop :=
  match f with
  | S754_zero _ | S754_nan => True
  | S754_infinity s | S754_finite s _ _ => s = false
  end.

(** [calculate_sleep_metrics] after its two [int(...)] calls. *)
Definition metrics_of_hours (sleep_goal : py_num) (bedtime_hour wake_hour : Z)
  : result analysis :=
  let sleep_duration := hour_difference bedtime_hour wake_hour in
  bind (sub sleep_goal (PyInt sleep_duration)) (fun diff =>
  bind (true_divide (PyInt sleep_duration) sleep_goal) (fun ratio =>
  bind (mul ratio (PyInt 100)) (fun percent =>
  bind (calculate_circadian_alignment bedtime_hour wake_hour) (fun alignment =>
  Ok {| sleep_duration := sleep_duration;
        sleep_debt := max (PyInt 0) diff;
        sleep_efficiency := min (PyInt 100) percent;
        circadian_alignment := alignment |})))).

(** The numbers that are not negative. *)
Definition nonneg_num (x : py_num) : Prop :=
  match x with
  | PyInt z => 0 <= z
  | PyFloat f => nonneg_float f
  end.

(** Decision procedures for lists of strings, used to check the rule
    table case by case. *)
Definition mem (x : string) (l : list string) : bool := existsb (String.eqb x) l.

Fixpoint nodupb (l : list string) : bool :=
  match l with
  | [] => true
  | x :: l' => negb (mem x l') && nodupb l'
  end.

Fixpoint subsequenceb (l t : list string) {struct t} : bool :=
  match l, t with
  | [], _ => true
  | _ :: _, [] => false
  | x :: l', y :: t' => (String.eqb x y && subsequenceb l' t') || subsequenceb l t'
  end.

Definition rule_table_check (out : list string) : bool :=
  subsequenceb out rule_table
  && nodupb out
  && negb (mem rule_sleep_short out && mem rule_sleep_long out)
  && negb (mem rule_productivity_high out && mem rule_productivity_low out)
  && Bool.eqb (mem rule_quality_environment out) (mem rule_quality_routine out).

(** [true] when the string holds no colon. *)
Fixpoint no_colon (s : string) : bool :=
  match s with
  | EmptyString => true
  | String c r => negb (Ascii.eqb c ":") && no_colon r
  end.

(** The half of the alignment score that one hour earns, in tenths:
    ten minus its distance to the optimal hour, floored at zero. *)
Definition hour_score (hour optimal : Z) : Z := Z.max 0 (10 - Z.abs (hour - optimal)).

(** Floats that are not positive, the NaN let through as in
    [nonneg_float]. *)
Definition nonpos_float (f : float) : Prop :=
  match f with
  | S754_zero _ | S754_nan => True
  | S754_infinity s | S754_finite s _ _ => s = true
  end.

(* ===================================================================== *)
(** ** Facts about binary64 rounding *)
(* ===================================================================== *)

Lemma digits2_pos_size (p : positive) : digits2_pos p = Pos.size p.
Proof. induction p; simpl; congruence. Qed.

Lemma Zdigits2_log2 (z : Z) : 0 < z -> Zdigits2 z = Z.log2 z + 1.
Proof.
  destruct z as [|p|p]; try lia. intros _.
  unfold Zdigits2. rewrite digits2_pos_size.
  destruct p; simpl; lia.
Qed.

Lemma Zdigits2_nonneg (z : Z) : 0 <= Zdigits2 z.
Proof. destruct z; simpl; lia. Qed.

Lemma Zdigits2_mono (a b : Z) : 0 <= a <= b -> Zdigits2 a <= Zdigits2 b.
Proof.
  intros [Ha Hab].
  destruct (Z.eq_dec a 0) as [->|Hne]; [apply Zdigits2_nonneg|].
  rewrite !Zdigits2_log2 by lia.
  pose proof (Z.log2_le_mono a b Hab). lia.
Qed.

Lemma Zdigits2_shiftl (m s : Z) :
  0 < m -> 0 <= s -> Zdigits2 (Z.shiftl m s) = Zdigits2 m + s.
Proof.
  intros Hm Hs.
  assert (0 < Z.shiftl m s).
  { rewrite Z.shiftl_mul_pow2 by lia. pose proof (Z.pow_pos_nonneg 2 s). lia. }
  rewrite !Zdigits2_log2 by lia.
  rewrite Z.log2_shiftl by lia. lia.
Qed.

Lemma Zdigits2_succ (m : Z) : 0 <= m -> Zdigits2 (m + 1) <= Zdigits2 m + 1.
Proof.
  intros Hm.
  destruct (Z.eq_dec m 0) as [->|Hne]; [simpl; lia|].
  rewrite !Zdigits2_log2 by lia.
  pose proof (Z.log2_succ_le m). unfold Z.succ in *. lia.
Qed.

Lemma shr_1_digits (r : shr_record) :
  0 <= shr_m r ->
  0 <= shr_m (shr_1 r) /\
  Zdigits2 (shr_m (shr_1 r)) = Z.max 0 (Zdigits2 (shr_m r) - 1).
Proof.
  destruct r as [m rb sb]; cbn [shr_m]. intros Hm.
  destruct m as [|p|p]; try lia.
  - cbn. lia.
  - destruct p; cbn [shr_1 shr_m Zdigits2 digits2_pos];
      rewrite ?Pos2Z.inj_succ; lia.
Qed.

Lemma iter_shr_1_digits (p : positive) :
  forall r, 0 <= shr_m r ->
  0 <= shr_m (iter_pos shr_1 p r) /\
  Zdigits2 (shr_m (iter_pos shr_1 p r)) = Z.max 0 (Zdigits2 (shr_m r) - Zpos p).
Proof.
  induction p as [p IH|p IH|]; intros r Hr; simpl iter_pos.
  - destruct (shr_1_digits r Hr) as [H1 E1].
    destruct (IH _ H1) as [H2 E2].
    destruct (IH _ H2) as [H3 E3].
    split; [exact H3|]. rewrite E3, E2, E1. lia.
  - destruct (IH _ Hr) as [H2 E2].
    destruct (IH _ H2) as [H3 E3].
    split; [exact H3|]. rewrite E3, E2. lia.
  - destruct (shr_1_digits r Hr) as [H1 E1]. split; [exact H1|]. rewrite E1. lia.
Qed.

Lemma shr_m_of_loc (m : Z) (l : location) : shr_m (shr_record_of_loc m l) = m.
Proof. destruct l as [|[]]; reflexivity. Qed.

Lemma fexp_eq (e : Z) : fexp prec emax e = Z.max (e - 53) (-1074).
Proof. reflexivity. Qed.

Lemma shr_fexp_bounds (m e : Z) (l : location) :
  0 <= m ->
  let '(mrs, e') := shr_fexp prec emax m e l in
  0 <= shr_m mrs /\
  e' = Z.max e (fexp prec emax (Zdigits2 m + e)) /\
  Zdigits2 (shr_m mrs) + e' <= Z.max (Zdigits2 m + e) e'.
Proof.
  intros Hm. unfold shr_fexp, shr.
  set (n := fexp prec emax (Zdigits2 m + e) - e).
  assert (Hn : fexp prec emax (Zdigits2 m + e) = e + n) by (unfold n; lia).
  rewrite Hn. clearbody n.
  destruct n as [|p|p].
  - rewrite shr_m_of_loc. split; [lia|]. split; lia.
  - pose proof (iter_shr_1_digits p (shr_record_of_loc m l)) as H.
    rewrite shr_m_of_loc in H. destruct (H Hm) as [H1 H2].
    split; [exact H1|]. rewrite H2. split; lia.
  - rewrite shr_m_of_loc. split; [lia|]. split; lia.
Qed.

Lemma round_nearest_even_bounds (m : Z) (l : location) :
  0 <= m -> 0 <= round_nearest_even m l <= m + 1.
Proof.
  intros Hm. unfold round_nearest_even.
  destruct l as [|[]]; try lia. destruct (Z.even m); lia.
Qed.

(** A significand whose value stays below 2^1023 never rounds to an
    infinity. *)
Lemma binary_round_aux_finite (s : bool) (m e : Z) (l : location) :
  0 <= m -> Zdigits2 m + e <= 1023 -> e <= 971 ->
  forall s', binary_round_aux prec emax s m e l <> S754_infinity s'.
Proof.
  intros Hm Hd He s'. unfold binary_round_aux.
  pose proof (shr_fexp_bounds m e l Hm) as H1.
  destruct (shr_fexp prec emax m e l) as [mrs1 e1].
  destruct H1 as (Hm1 & He1 & Hd1).
  pose proof (round_nearest_even_bounds (shr_m mrs1) (loc_of_shr_record mrs1) Hm1) as Hr.
  set (m1 := round_nearest_even (shr_m mrs1) (loc_of_shr_record mrs1)) in *.
  pose proof (shr_fexp_bounds m1 e1 loc_Exact (proj1 Hr)) as H2.
  destruct (shr_fexp prec emax m1 e1 loc_Exact) as [mrs2 e2].
  destruct H2 as (Hm2 & He2 & Hd2).
  assert (Zdigits2 m1 <= Zdigits2 (shr_m mrs1) + 1).
  { etransitivity; [apply Zdigits2_mono; split; [apply Hr|apply Hr]|].
    apply Zdigits2_succ; exact Hm1. }
  rewrite fexp_eq in He1, He2.
  assert (e2 <= 971) by lia.
  destruct (shr_m mrs2); try discriminate.
  replace (emax - prec) with 971 by reflexivity.
  destruct (Z.leb_spec e2 971); [discriminate|lia].
Qed.

Lemma binary_round_aux_nonneg (m e : Z) (l : location) :
  nonneg_float (binary_round_aux prec emax false m e l).
Proof.
  unfold binary_round_aux.
  destruct (shr_fexp prec emax m e l) as [mrs1 e1].
  destruct (shr_fexp prec emax _ e1 loc_Exact) as [mrs2 e2].
  destruct (shr_m mrs2); [exact I| |exact I].
  destruct (e2 <=? emax - prec); reflexivity.
Qed.

Lemma SFdiv_core_binary_bounds (m1 m2 : positive) (e1 e2 : Z) :
  let '(q, e', _) := SFdiv_core_binary prec emax (Zpos m1) e1 (Zpos m2) e2 in
  0 <= q /\ e' <= e1 - e2 /\
  Zdigits2 q + e' <= Zdigits2 (Zpos m1) + e1 - e2.
Proof.
  unfold SFdiv_core_binary.
  set (d1 := Zdigits2 (Zpos m1)). set (d2 := Zdigits2 (Zpos m2)).
  set (e' := Z.min (fexp prec emax (d1 + e1 - (d2 + e2))) (e1 - e2)).
  remember (e1 - e2 - e') as s eqn:Es.
  assert (Hs : 0 <= s) by (unfold e' in Es; lia).
  remember (match s with Zpos _ => Z.shiftl (Zpos m1) s | Z0 => Zpos m1 | Zneg _ => 0 end)
    as m' eqn:Em'.
  assert (Hm' : 0 < m' /\ Zdigits2 m' = d1 + s).
  { destruct s as [|ps|ps]; try lia; subst m'.
    - split; [lia|]. unfold d1. lia.
    - split.
      + rewrite Z.shiftl_mul_pow2 by lia.
        pose proof (Z.pow_pos_nonneg 2 (Zpos ps)). lia.
      + apply Zdigits2_shiftl; lia. }
  clear Em'. destruct Hm' as [Hpos Hdig].
  pose proof (Z.div_eucl_eq m' (Zpos m2) ltac:(lia)) as Heq.
  pose proof (Z.mod_pos_bound m' (Zpos m2) ltac:(lia)) as Hmod.
  unfold Z.modulo in Hmod.
  destruct (Z.div_eucl m' (Zpos m2)) as [q r].
  assert (Hq : 0 <= q <= m') by nia.
  split; [lia|]. split; [unfold e'; lia|].
  pose proof (Zdigits2_mono q m' Hq). lia.
Qed.

(** Dividing two ints: a dividend below 2^1023 in absolute value and a
    nonzero divisor give a float, never an exception. *)
Lemma int_true_divide_ok (a b : Z) :
  b <> 0 -> Zdigits2 a <= 1023 ->
  exists f, int_true_divide a b = Ok f /\ (0 <= a -> 0 < b -> nonneg_float f).
Proof.
  intros Hb Ha. unfold int_true_divide.
  destruct (Z.eqb_spec b 0) as [|_]; [contradiction|].
  destruct a as [|pa|pa]; destruct b as [|pb|pb]; try contradiction;
    cbn [exact_of_int SFdiv].
  1,2: eexists; split; [reflexivity|intros; exact I].
  all: pose proof (SFdiv_core_binary_bounds pa pb 0 0) as H;
       destruct (SFdiv_core_binary prec emax (Zpos pa) 0 (Zpos pb) 0) as [[q e'] l];
       destruct H as (Hq & He & Hd);
       match goal with
       | |- context [binary_round_aux prec emax ?s q e' l] =>
           pose proof (binary_round_aux_finite s q e' l Hq
                         ltac:(cbn [Zdigits2] in *; lia) ltac:(lia)) as Hfin;
           pose proof (binary_round_aux_nonneg q e' l) as Hnn;
           destruct (binary_round_aux prec emax s q e' l) eqn:E
       end.
  all: try (exfalso; eapply Hfin; reflexivity).
  all: eexists; split; [reflexivity|]; intros H1 H2; try lia.
  all: cbn [xorb] in E; rewrite E in Hnn; exact Hnn.
Qed.

(* ===================================================================== *)
(** ** Comparisons, [min] and [max] *)
(* ===================================================================== *)

Lemma lt_le (a b : py_num) : lt a b = true -> le a b = true.
Proof. unfold lt, le. destruct (compare a b) as [[]|]; congruence. Qed.

Lemma le_zero_nonneg_float (f : float) :
  nonneg_float f -> f <> S754_nan -> le (PyInt 0) (PyFloat f) = true.
Proof.
  unfold le, compare, compare_float_int.
  destruct f as [s|s| |s m e]; cbn [nonneg_float option_map]; intros H Hn;
    try congruence; subst; try reflexivity.
  cbn [cond_Zopp]. destruct (0 <=? e) eqn:E.
  - apply Z.leb_le in E. pose proof (Z.pow_pos_nonneg 2 e).
    assert (Z.pos m * 2 ^ e > 0) as G by nia. rewrite G. reflexivity.
  - reflexivity.
Qed.

Lemma max_zero_lower (x : py_num) : le (PyInt 0) (max (PyInt 0) x) = true.
Proof.
  unfold max. destruct (lt (PyInt 0) x) eqn:E.
  - apply lt_le; exact E.
  - reflexivity.
Qed.

Lemma min_hundred_upper (x : py_num) : le (min (PyInt 100) x) (PyInt 100) = true.
Proof.
  unfold min. destruct (lt x (PyInt 100)) eqn:E.
  - apply lt_le; exact E.
  - reflexivity.
Qed.

Lemma min_hundred_lower (x : py_num) :
  nonneg_num x -> le (PyInt 0) (min (PyInt 100) x) = true.
Proof.
  intros Hx. unfold min. destruct (lt x (PyInt 100)) eqn:E; [|reflexivity].
  destruct x as [z|f]; cbn [nonneg_num] in Hx.
  - unfold le, compare. destruct (Z.compare_spec 0 z); try reflexivity; lia.
  - apply le_zero_nonneg_float; [exact Hx|].
    intros ->. discriminate E.
Qed.

(* ===================================================================== *)
(** ** Signs of float products and quotients *)
(* ===================================================================== *)

Lemma SFmul_nonneg (x : float) (m : positive) (e : Z) :
  nonneg_float x -> nonneg_float (SFmul prec emax x (S754_finite false m e)).
Proof.
  destruct x as [s|s| |s mx ex]; cbn [nonneg_float SFmul]; intros H; subst;
    try exact I; try reflexivity.
  apply binary_round_aux_nonneg.
Qed.

(** A float above the int 0 is a positive finite value or plus infinity. *)
Lemma positive_float_inv (y : float) :
  lt (PyInt 0) (PyFloat y) = true ->
  y = S754_infinity false \/ exists m e, y = S754_finite false m e.
Proof.
  unfold lt, compare, compare_float_int.
  destruct y as [s|s| |s m e]; cbn [option_map]; intros H.
  - discriminate H.
  - destruct s; [discriminate H|left; reflexivity].
  - discriminate H.
  - destruct s; [exfalso|right; eauto].
    cbn [cond_Zopp] in H. destruct (0 <=? e) eqn:E.
    + apply Z.leb_le in E. pose proof (Z.pow_pos_nonneg 2 e).
      assert (- Z.pos m * 2 ^ e < 0) as G by nia. rewrite G in H. discriminate H.
    + discriminate H.
Qed.

Lemma SFdiv_nonneg (x y : float) :
  nonneg_float x -> lt (PyInt 0) (PyFloat y) = true ->
  nonneg_float (SFdiv prec emax x y).
Proof.
  intros Hx Hy. destruct (positive_float_inv y Hy) as [->|(my & ey & ->)];
    destruct x as [sx|sx| |sx mx ex]; cbn [nonneg_float SFdiv] in *; subst;
    try exact I; try reflexivity.
  destruct (SFdiv_core_binary prec emax (Zpos mx) ex (Zpos my) ey) as [[q e'] l].
  apply binary_round_aux_nonneg.
Qed.

(** A boolean property checked on [0 .. n-1] holds there. *)
Lemma Z_range_forall (f : Z -> bool) (n : nat) :
  forallb f (map Z.of_nat (seq 0 n)) = true ->
  forall z, 0 <= z < Z.of_nat n -> f z = true.
Proof.
  intros H z Hz. rewrite forallb_forall in H. apply H.
  apply in_map_iff. exists (Z.to_nat z). split; [lia|].
  apply in_seq. lia.
Qed.

Lemma float_of_small_int (d : Z) :
  0 <= d <= 24 -> exists f, float_of_int d = Ok f /\ nonneg_float f.
Proof.
  intros Hd.
  pose (check := fun z => match float_of_int z with
                          | Ok (S754_zero _) => true
                          | Ok (S754_finite false _ _) => true
                          | _ => false
                          end).
  assert (H : check d = true).
  { apply (Z_range_forall check 25); [vm_compute; reflexivity|lia]. }
  unfold check in H.
  destruct (float_of_int d) as [[s|s| |[] m e]|]; try discriminate;
    eexists; split; try reflexivity; simpl; auto.
Qed.

Lemma float_of_hundred :
  float_of_int 100 = Ok (S754_finite false 7036874417766400 (-46)).
Proof. vm_compute. reflexivity. Qed.

(* ===================================================================== *)
(** ** The sleep metrics *)
(* ===================================================================== *)

Lemma hour_difference_range (bh wh : Z) :
  0 <= bh <= 23 -> 0 <= wh <= 23 -> 0 <= hour_difference bh wh <= 24.
Proof.
  intros Hb Hw. unfold hour_difference.
  destruct (Z.ltb_spec wh bh); lia.
Qed.

(** The alignment score is an integer of [0, 100], whatever the hours. *)
Lemma circadian_alignment_bounds (bh wh : Z) :
  exists r, calculate_circadian_alignment bh wh = Ok r /\ 0 <= r <= 100.
Proof.
  unfold calculate_circadian_alignment.
  set (s := Z.max 0 (100 - Z.abs (bh - 22) * 10) + Z.max 0 (100 - Z.abs (wh - 6) * 10)).
  assert (Hs : 0 <= s < Z.of_nat 201) by (unfold s; lia).
  clearbody s.
  pose (check := fun z => match bind (int_true_divide z 2) round with
                          | Ok r => (0 <=? r) && (r <=? 100)
                          | Raise _ => false
                          end).
  assert (H : check s = true).
  { apply (Z_range_forall check 201); [vm_compute; reflexivity|exact Hs]. }
  unfold check in H.
  destruct (bind (int_true_divide s 2) round) as [r|e]; [|discriminate H].
  exists r. split; [reflexivity|lia].
Qed.

Lemma calculate_sleep_metrics_fields (p : profile) :
  calculate_sleep_metrics p =
  bind (hour_field (bedtime p)) (fun bh =>
  bind (hour_field (wakeTime p)) (fun wh =>
  metrics_of_hours (sleepGoal p) bh wh)).
Proof.
  unfold calculate_sleep_metrics, hour_field.
  destruct (index (split ":" (bedtime p)) 0) as [h0|e]; [|reflexivity].
  cbn [bind]. destruct (int h0) as [bh|e]; [|reflexivity].
  cbn [bind]. destruct (index (split ":" (wakeTime p)) 0) as [w0|e]; [|reflexivity].
  cbn [bind]. destruct (int w0) as [wh|e]; reflexivity.
Qed.

Lemma metrics_of_hours_duration (g : py_num) (bh wh : Z) (a : analysis) :
  metrics_of_hours g bh wh = Ok a -> sleep_duration a = hour_difference bh wh.
Proof.
  unfold metrics_of_hours.
  destruct (sub g _); [|discriminate]. cbn [bind].
  destruct (true_divide _ g); [|discriminate]. cbn [bind].
  destruct (mul _ _); [|discriminate]. cbn [bind].
  destruct (calculate_circadian_alignment bh wh); [|discriminate]. cbn [bind].
  intros H. injection H as <-. reflexivity.
Qed.

Lemma metrics_of_hours_efficiency (g : py_num) (bh wh : Z) (a : analysis) :
  metrics_of_hours g bh wh = Ok a ->
  exists ratio percent,
    true_divide (PyInt (sleep_duration a)) g = Ok ratio /\
    mul ratio (PyInt 100) = Ok percent /\
    sleep_efficiency a = min (PyInt 100) percent.
Proof.
  unfold metrics_of_hours.
  destruct (sub g _); [|discriminate]. cbn [bind].
  destruct (true_divide _ g) as [ratio|] eqn:Er; [|discriminate]. cbn [bind].
  destruct (mul _ _) as [percent|] eqn:Ep; [|discriminate]. cbn [bind].
  destruct (calculate_circadian_alignment bh wh); [|discriminate]. cbn [bind].
  intros H. injection H as <-. cbn [sleep_duration sleep_efficiency].
  exists ratio, percent. auto.
Qed.

(** With hours of the day and a goal that is not zero, nothing is raised;
    with a positive goal, the percentage is not negative. *)
Lemma metrics_of_hours_ok (g : py_num) (bh wh : Z) :
  0 <= bh <= 23 -> 0 <= wh <= 23 -> is_zero_num g = false ->
  exists diff percent alignment,
    metrics_of_hours g bh wh =
      Ok {| sleep_duration := hour_difference bh wh;
            sleep_debt := max (PyInt 0) diff;
            sleep_efficiency := min (PyInt 100) percent;
            circadian_alignment := alignment |} /\
    calculate_circadian_alignment bh wh = Ok alignment /\
    0 <= alignment <= 100 /\
    (lt (PyInt 0) g = true -> nonneg_num percent).
Proof.
  intros Hb Hw Hg. unfold metrics_of_hours.
  pose proof (hour_difference_range bh wh Hb Hw) as Hd.
  set (d := hour_difference bh wh) in *. clearbody d.
  destruct (circadian_alignment_bounds bh wh) as (r & Er & Hr). rewrite Er.
  destruct g as [z|f]; cbn [is_zero_num] in Hg.
  - apply Z.eqb_neq in Hg.
    assert (Hdig : Zdigits2 d <= 1023).
    { pose proof (Zdigits2_mono d 24 ltac:(lia)). cbn in H. lia. }
    destruct (int_true_divide_ok d z Hg Hdig) as (q & Eq & Hq).
    cbn [sub true_divide bind]. rewrite Eq. cbn [bind mul to_float].
    rewrite float_of_hundred. cbn [bind].
    do 3 eexists. split; [reflexivity|]. split; [reflexivity|]. split; [exact Hr|].
    intros Hpos. cbn [nonneg_num]. apply SFmul_nonneg. apply Hq; [lia|].
    unfold lt, compare in Hpos. destruct (Z.compare_spec 0 z); congruence || lia.
  - destruct (float_of_small_int d Hd) as (fd & Efd & Hfd).
    cbn [sub true_divide to_float bind]. rewrite Efd. cbn [bind]. rewrite Hg.
    cbn [bind mul to_float]. rewrite float_of_hundred. cbn [bind].
    do 3 eexists. split; [reflexivity|]. split; [reflexivity|]. split; [exact Hr|].
    intros Hpos. cbn [nonneg_num]. apply SFmul_nonneg.
    apply SFdiv_nonneg; assumption.
Qed.

(** A zero goal always ends in an exception. *)
Lemma metrics_of_hours_zero_goal (g : py_num) (bh wh : Z) :
  is_zero_num g = true -> exists e, metrics_of_hours g bh wh = Raise e.
Proof.
  intros Hg. unfold metrics_of_hours.
  destruct g as [z|f]; cbn [is_zero_num] in Hg.
  - apply Z.eqb_eq in Hg. subst z. cbn [sub bind true_divide].
    unfold int_true_divide. cbn [Z.eqb bind]. eauto.
  - cbn [sub true_divide to_float bind].
    destruct (float_of_int (hour_difference bh wh)); cbn [bind]; [|eauto].
    rewrite Hg. cbn [bind]. eauto.
Qed.

(* ===================================================================== *)
(** ** The time-offset helper *)
(* ===================================================================== *)

Lemma while_hour_ge_24_mod (fuel : nat) :
  forall hour, hour < 24 * Z.of_nat fuel + 24 ->
  while_hour_ge_24 fuel hour = if hour <? 24 then hour else hour mod 24.
Proof.
  induction fuel as [|fuel IH]; intros hour Hh.
  - cbn [while_hour_ge_24]. destruct (Z.ltb_spec hour 24); [reflexivity|lia].
  - cbn [while_hour_ge_24].
    destruct (Z.leb_spec 24 hour) as [Hge|Hlt].
    + rewrite IH by lia.
      destruct (Z.ltb_spec hour 24); [lia|].
      destruct (Z.ltb_spec (hour - 24) 24).
      * Z.div_mod_to_equations. lia.
      * replace hour with (hour - 24 + 1 * 24) at 2 by lia.
        rewrite Z.mod_add by lia. reflexivity.
    + destruct (Z.ltb_spec hour 24); [reflexivity|lia].
Qed.

Lemma while_hour_lt_0_mod (fuel : nat) :
  forall hour, hour < 24 -> - hour <= 24 * Z.of_nat fuel ->
  while_hour_lt_0 fuel hour = hour mod 24.
Proof.
  induction fuel as [|fuel IH]; intros hour Hlt Hh.
  - cbn [while_hour_lt_0]. symmetry. apply Z.mod_small. lia.
  - cbn [while_hour_lt_0].
    destruct (Z.ltb_spec hour 0) as [Hneg|Hpos].
    + rewrite IH by lia.
      replace (hour + 24) with (hour + 1 * 24) by lia.
      apply Z.mod_add. lia.
    + symmetry. apply Z.mod_small. lia.
Qed.

(** The two loops bring any hour into [0, 23]. *)
Lemma handle_hour_overflow_mod (hour : Z) : handle_hour_overflow hour = hour mod 24.
Proof.
  unfold handle_hour_overflow.
  rewrite while_hour_ge_24_mod by lia.
  destruct (Z.ltb_spec hour 24) as [Hlt|Hge].
  - apply while_hour_lt_0_mod; lia.
  - pose proof (Z.mod_pos_bound hour 24 ltac:(lia)).
    rewrite while_hour_lt_0_mod by lia.
    apply Z.mod_mod. lia.
Qed.

Lemma calculate_time_offset_fields (base_time : string) (ho mo : Z) :
  calculate_time_offset base_time ho mo =
  bind (hour_field base_time) (fun h =>
  bind (minute_field base_time) (fun m =>
  Ok (offset_fields h m ho mo))).
Proof.
  unfold calculate_time_offset, hour_field, minute_field, offset_fields.
  destruct (index (split ":" base_time) 0) as [h0|e]; [|reflexivity].
  cbn [bind]. destruct (int h0) as [h|e]; [|reflexivity].
  cbn [bind]. destruct (index (split ":" base_time) 1) as [m0|e]; [|reflexivity].
  cbn [bind]. destruct (int m0) as [m|e]; [|reflexivity].
  cbn [bind].
  destruct (60 <=? m + mo); destruct (_ <? 0); reflexivity.
Qed.

(** Whole hours back from a time of day: the helper agrees with the
    clock. *)
Lemma offset_fields_hours_back (h m k : Z) :
  0 <= h <= 23 -> 0 <= m <= 59 -> 0 <= k <= 24 ->
  offset_fields h m (- k) 0 = clock_minus h m (60 * k).
Proof.
  intros Hh Hm Hk. unfold offset_fields, clock_minus.
  rewrite handle_hour_overflow_mod, Z.add_0_r.
  destruct (Z.leb_spec 60 m); [lia|].
  destruct (Z.ltb_spec m 0); [lia|].
  f_equal.
  - pose proof (Z.mod_pos_bound (h + - k) 24 ltac:(lia)).
    pose proof (Z.mod_pos_bound (60 * h + m - 60 * k) 1440 ltac:(lia)).
    apply Z.div_unique with (r := m); [lia|].
    Z.div_mod_to_equations. lia.
  - Z.div_mod_to_equations. lia.
Qed.

(** One hour back and thirty minutes forward: thirty minutes before the
    base time, unless the base time lies in 00:30-00:59. *)
Lemma offset_fields_half_hour_back (h m : Z) :
  0 <= h <= 23 -> 0 <= m <= 59 -> ~ (h = 0 /\ 30 <= m) ->
  offset_fields h m (-1) 30 = clock_minus h m 30.
Proof.
  intros Hh Hm Hex. unfold offset_fields, clock_minus.
  rewrite handle_hour_overflow_mod.
  destruct (Z.leb_spec 60 (m + 30)).
  - destruct (Z.ltb_spec (m + 30 - 60) 0); [lia|].
    f_equal; Z.div_mod_to_equations; lia.
  - destruct (Z.ltb_spec (m + 30) 0); [lia|].
    f_equal; Z.div_mod_to_equations; lia.
Qed.

Lemma offset_fields_one_hour_back (h m : Z) :
  0 <= h <= 23 -> 0 <= m <= 59 ->
  offset_fields h m (-1) 0 = clock_minus h m 60.
Proof. intros Hh Hm. exact (offset_fields_hours_back h m 1 Hh Hm ltac:(lia)). Qed.

Lemma offset_fields_two_hours_back (h m : Z) :
  0 <= h <= 23 -> 0 <= m <= 59 ->
  offset_fields h m (-2) 0 = clock_minus h m 120.
Proof. intros Hh Hm. exact (offset_fields_hours_back h m 2 Hh Hm ltac:(lia)). Qed.

(* ===================================================================== *)
(** ** The profile evaluator's recommendation list *)
(* ===================================================================== *)

(** The loop only reads the bedtime of the profile. *)
Lemma issue_specific_bedtime (p p' : profile) (issues : list string) :
  bedtime p = bedtime p' ->
  forall recs, issue_specific p issues recs = issue_specific p' issues recs.
Proof.
  intros Hb. induction issues as [|issue rest IH]; intros recs; cbn [issue_specific].
  - reflexivity.
  - rewrite Hb.
    destruct (String.eqb issue "anxiety").
    + destruct (calculate_time_offset (bedtime p') (-1) 30); cbn [bind]; auto.
    + destruct (String.eqb issue "temperature").
      * destruct (calculate_time_offset (bedtime p') (-1) 0); cbn [bind]; auto.
      * apply IH.
Qed.

(** When both times can be computed, the loop appends one entry per known
    tag, in input order. *)
Lemma issue_specific_entries (p : profile) (t_a t_t : string) (issues : list string) :
  calculate_time_offset (bedtime p) (-1) 30 = Ok t_a ->
  calculate_time_offset (bedtime p) (-1) 0 = Ok t_t ->
  forall recs,
    issue_specific p issues recs = Ok (recs ++ flat_map (issue_entry t_a t_t) issues).
Proof.
  intros Ha Ht. induction issues as [|issue rest IH]; intros recs;
    cbn [issue_specific flat_map].
  - rewrite app_nil_r. reflexivity.
  - unfold issue_entry at 1.
    destruct (String.eqb issue "anxiety").
    + rewrite Ha. cbn [bind]. rewrite IH, <- app_assoc. reflexivity.
    + destruct (String.eqb issue "temperature").
      * rewrite Ht. cbn [bind]. rewrite IH, <- app_assoc. reflexivity.
      * apply IH.
Qed.

(** A tag outside the table can be dropped from the loop. *)
Lemma issue_specific_unknown (p : profile) (tag : string) (pre post : list string) :
  known_issue tag = false ->
  forall recs,
    issue_specific p (pre ++ tag :: post) recs = issue_specific p (pre ++ post) recs.
Proof.
  intros Hk. apply orb_false_elim in Hk. destruct Hk as [Ha Ht].
  induction pre as [|issue pre IH]; intros recs.
  - cbn [app issue_specific]. rewrite Ha, Ht. reflexivity.
  - cbn [app issue_specific].
    destruct (String.eqb issue "anxiety").
    + destruct (calculate_time_offset (bedtime p) (-1) 30); cbn [bind]; auto.
    + destruct (String.eqb issue "temperature").
      * destruct (calculate_time_offset (bedtime p) (-1) 0); cbn [bind]; auto.
      * apply IH.
Qed.

(** The list, once the two fields of the bedtime are parsed. *)
Lemma generate_ai_recommendations_parsed (p : profile) (a : analysis) (h m : Z) :
  hour_field (bedtime p) = Ok h -> minute_field (bedtime p) = Ok m ->
  generate_ai_recommendations p a =
  Ok (wind_down (offset_fields h m (-2) 0)
      :: screen_cutoff (offset_fields h m (-1) 0)
      :: flat_map (issue_entry (offset_fields h m (-1) 30) (offset_fields h m (-1) 0))
                  (sleepIssues p)).
Proof.
  intros Hh Hm.
  assert (Hoff : forall ho mo,
             calculate_time_offset (bedtime p) ho mo = Ok (offset_fields h m ho mo)).
  { intros. rewrite calculate_time_offset_fields, Hh, Hm. reflexivity. }
  unfold generate_ai_recommendations. rewrite !Hoff. cbn [bind app].
  rewrite (issue_specific_entries p _ _ _ (Hoff _ _) (Hoff _ _)).
  reflexivity.
Qed.

(** A bedtime whose hour or minute field does not parse yields no list. *)
Lemma generate_ai_recommendations_unparsed (p : profile) (a : analysis) :
  (exists e, hour_field (bedtime p) = Raise e) \/
  (exists e, minute_field (bedtime p) = Raise e) ->
  exists e, generate_ai_recommendations p a = Raise e.
Proof.
  intros H. unfold generate_ai_recommendations.
  rewrite (calculate_time_offset_fields (bedtime p) (-2) 0).
  destruct H as [[e He]|[e He]].
  - rewrite He. cbn [bind]. eauto.
  - rewrite He. destruct (hour_field (bedtime p)); cbn [bind]; eauto.
Qed.

Lemma count_flat_map_issue_entry (t_a t_t : string) (issues : list string) :
  List.length (filter (fun r => String.eqb (id r) "anxiety-relief")
                 (flat_map (issue_entry t_a t_t) issues))
  = count_occ string_dec issues "anxiety".
Proof.
  induction issues as [|issue rest IH]; [reflexivity|].
  cbn [flat_map count_occ]. rewrite filter_app, length_app, IH.
  unfold issue_entry.
  destruct (String.eqb_spec issue "anxiety") as [->|Hne].
  - destruct (string_dec "anxiety" "anxiety"); [reflexivity|contradiction].
  - destruct (string_dec issue "anxiety"); [contradiction|].
    destruct (String.eqb issue "temperature"); reflexivity.
Qed.

Lemma positive_goal_not_zero (g : py_num) :
  lt (PyInt 0) g = true -> is_zero_num g = false.
Proof.
  destruct g as [z|f]; intros H.
  - unfold lt, compare in H. cbn [is_zero_num].
    destruct (Z.eqb_spec z 0) as [->|]; [discriminate H|reflexivity].
  - destruct (positive_float_inv f H) as [->|(m & e & ->)]; reflexivity.
Qed.

(** With hours of the day, a zero goal stops at the division. *)
Lemma metrics_of_hours_zero_division (g : py_num) (bh wh : Z) :
  0 <= bh <= 23 -> 0 <= wh <= 23 -> is_zero_num g = true ->
  metrics_of_hours g bh wh = Raise ZeroDivisionError.
Proof.
  intros Hb Hw Hg. unfold metrics_of_hours.
  destruct g as [z|f]; cbn [is_zero_num] in Hg.
  - apply Z.eqb_eq in Hg. subst z. reflexivity.
  - destruct (float_of_small_int _ (hour_difference_range bh wh Hb Hw)) as (fd & E & _).
    cbn [sub true_divide to_float bind]. rewrite E. cbn [bind]. rewrite Hg.
    reflexivity.
Qed.

(* ===================================================================== *)
(** ** The record filter *)
(* ===================================================================== *)

Lemma filter_filter {A : Type} (f g : A -> bool) (l : list A) :
  filter g (filter f l) = filter (fun x => f x && g x) l.
Proof.
  induction l as [|x l IH]; [reflexivity|].
  cbn [filter]. destruct (f x); cbn [andb filter]; [destruct (g x)|]; congruence.
Qed.

Lemma select_records_filter (df : list sleep_record) (age : Z) (gender : string) :
  select_records df age gender = filter (matches_criteria age gender) df.
Proof.
  unfold select_records, filter_gender, filter_age, matches_criteria.
  destruct (String.eqb (lower gender) "all"); cbn [negb orb].
  - apply filter_ext. intros r. rewrite andb_true_r. reflexivity.
  - apply filter_filter.
Qed.

(* ===================================================================== *)
(** ** Deciding the rule-table properties *)
(* ===================================================================== *)

Lemma mem_In (x : string) (l : list string) : mem x l = true <-> In x l.
Proof.
  unfold mem. rewrite existsb_exists. split.
  - intros (y & Hy & E). apply String.eqb_eq in E. subst. exact Hy.
  - intros H. exists x. split; [exact H|apply String.eqb_refl].
Qed.

Lemma nodupb_NoDup (l : list string) : nodupb l = true -> NoDup l.
Proof.
  induction l as [|x l IH]; cbn [nodupb]; intros H; constructor.
  - apply andb_true_iff in H. destruct H as [H _].
    intros Hin. apply mem_In in Hin. rewrite Hin in H. discriminate H.
  - apply IH. apply andb_true_iff in H. apply H.
Qed.

Lemma subsequenceb_subsequence (t : list string) :
  forall l, subsequenceb l t = true -> subsequence l t.
Proof.
  induction t as [|y t IH]; intros [|x l]; cbn [subsequenceb subsequence];
    intros H; try exact I; try discriminate H.
  apply orb_true_iff in H. destruct H as [H|H].
  - apply andb_true_iff in H. destruct H as [E H]. apply String.eqb_eq in E.
    left. split; [exact E|apply IH; exact H].
  - right. apply IH. exact H.
Qed.

Lemma rule_table_check_sound (out : list string) :
  rule_table_check out = true ->
  subsequence out rule_table /\
  NoDup out /\
  ~ (In rule_sleep_short out /\ In rule_sleep_long out) /\
  ~ (In rule_productivity_high out /\ In rule_productivity_low out) /\
  (In rule_quality_environment out <-> In rule_quality_routine out).
Proof.
  unfold rule_table_check. rewrite !andb_true_iff.
  intros ((((Hs & Hn) & Hd) & Hp) & Hq).
  split; [apply subsequenceb_subsequence; exact Hs|].
  split; [apply nodupb_NoDup; exact Hn|].
  apply negb_true_iff, andb_false_iff in Hd.
  apply negb_true_iff, andb_false_iff in Hp.
  apply Bool.eqb_prop in Hq.
  rewrite <- !mem_In, Hq.
  split; [intros [H1 H2]; destruct Hd; congruence|].
  split; [intros [H1 H2]; destruct Hp; congruence|].
  tauto.
Qed.

(* ===================================================================== *)
(** ** The model on concrete inputs *)
(* ===================================================================== *)

Example int_accepts_blanks_sign_and_underscores :
  Py.int " 22 " = Ok 22 /\ Py.int "+7" = Ok 7 /\ Py.int "-0" = Ok 0 /\
  Py.int "1_0" = Ok 10 /\ Py.int "" = Raise ValueError /\
  Py.int "1__0" = Raise ValueError /\ Py.int "2 2" = Raise ValueError /\
  Py.int "0x10" = Raise ValueError.
Proof. repeat split; reflexivity. Qed.

Example split_keeps_empty_fields :
  split ":" "22:30" = ["22"; "30"] /\ split ":" "2230" = ["2230"] /\
  split ":" "" = [""] /\ split ":" "1:2:3" = ["1"; "2"; "3"].
Proof. repeat split; reflexivity. Qed.

Example format_02d_pads_to_two :
  format_02d 5 = "05" /\ format_02d 0 = "00" /\ format_02d 24 = "24" /\
  format_02d (-1) = "-1" /\ format_02d 140 = "140".
Proof. repeat split; reflexivity. Qed.

(** 1/3 and (8/9)*100 as CPython computes them. *)
Example true_divide_rounds_to_nearest :
  int_true_divide 1 3 = Ok (S754_finite false 6004799503160661 (-54)) /\
  bind (true_divide (PyInt 8) (PyInt 9)) (fun r => mul r (PyInt 100))
  = Ok (PyFloat (S754_finite false 6254999482459022 (-46))).
Proof. split; vm_compute; reflexivity. Qed.

Example round_ties_to_even :
  bind (int_true_divide 5 2) Py.round = Ok 2 /\
  bind (int_true_divide 7 2) Py.round = Ok 4 /\
  bind (int_true_divide (-3) 2) Py.round = Ok (-2).
Proof. repeat split; vm_compute; reflexivity. Qed.

(** The profile of the test script. *)
Example test_script_profile_metrics :
  calculate_sleep_metrics
    {| bedtime := "22:30"; wakeTime := "06:30"; sleepGoal := PyInt 8;
       lifestyle := "moderate"; sleepIssues := ["anxiety"; "screen-time"] |}
  = Ok {| sleep_duration := 8; sleep_debt := PyInt 0;
          sleep_efficiency := PyInt 100; circadian_alignment := 100 |}.
Proof. vm_compute. reflexivity. Qed.

Example select_records_on_three_rows :
  let row a g :=
    {| Age := a; Gender := g;
       Total_Sleep_Hours := S754_zero false; Sleep_Quality := S754_zero false;
       Productivity_Score := S754_zero false; Mood_Score := S754_zero false;
       Stress_Level := S754_zero false |} in
  let df := [row 25 "Male"; row 31 "Female"; row 36 "male"] in
  select_records df 30 "MALE" = [row 25 "Male"] /\
  select_records df 30 "All" = [row 25 "Male"; row 31 "Female"] /\
  select_records df 5 "male" = [].
Proof. repeat split; reflexivity. Qed.

(* ===================================================================== *)
(** ** Properties C1-C10 of the specification *)
(* ===================================================================== *)

(** C1. For every profile whose bedtime and wakeTime parse to hours, the
    sleep_duration that [calculate_sleep_metrics] returns is
    (24 - bedtime hour) + wake hour when the wake hour is below the
    bedtime hour, and wake hour - bedtime hour otherwise; minutes play no
    part.  The metrics are returned whenever the hours are hours of the
    day and the goal is not zero. *)
Theorem C1_sleep_duration_hour_difference (p : profile) (bh wh : Z) :
  hour_field (bedtime p) = Ok bh ->
  hour_field (wakeTime p) = Ok wh ->
  (forall a, calculate_sleep_metrics p = Ok a ->
     sleep_duration a = if wh <? bh then (24 - bh) + wh else wh - bh)
  /\ (0 <= bh <= 23 -> 0 <= wh <= 23 -> is_zero_num (sleepGoal p) = false ->
      exists a, calculate_sleep_metrics p = Ok a /\
        sleep_duration a = if wh <? bh then (24 - bh) + wh else wh - bh).
Proof.
  intros Hb Hw. rewrite calculate_sleep_metrics_fields, Hb, Hw. cbn [bind].
  split.
  - intros a Ha. apply (metrics_of_hours_duration _ _ _ _ Ha).
  - intros Rb Rw Hg.
    destruct (metrics_of_hours_ok _ bh wh Rb Rw Hg) as (diff & pc & al & E & _).
    eexists. split; [exact E|reflexivity].
Qed.

(** C1, on the two profiles the specification names: 23:00 to 01:00 gives
    2 hours, 22:00 to 22:00 gives 0 hours. *)
Lemma C1_overnight_and_same_hour :
  (exists a,
     calculate_sleep_metrics
       {| bedtime := "23:00"; wakeTime := "01:00"; sleepGoal := PyInt 8;
          lifestyle := "moderate"; sleepIssues := [] |} = Ok a
     /\ sleep_duration a = 2)
  /\ (exists a,
     calculate_sleep_metrics
       {| bedtime := "22:00"; wakeTime := "22:00"; sleepGoal := PyInt 8;
          lifestyle := "moderate"; sleepIssues := [] |} = Ok a
     /\ sleep_duration a = 0).
Proof.
  split.
  - apply (C1_sleep_duration_hour_difference
             {| bedtime := "23:00"; wakeTime := "01:00"; sleepGoal := PyInt 8;
                lifestyle := "moderate"; sleepIssues := [] |} 23 1);
      try reflexivity; lia.
  - apply (C1_sleep_duration_hour_difference
             {| bedtime := "22:00"; wakeTime := "22:00"; sleepGoal := PyInt 8;
                lifestyle := "moderate"; sleepIssues := [] |} 22 22);
      try reflexivity; lia.
Defined.

(** C2. For every profile with a positive sleepGoal whose bedtime and wake
    hours lie in [0, 23], the metrics are returned with sleep_debt >= 0,
    sleep_efficiency in [0, 100] and circadian_alignment in [0, 100]; with
    bedtime hour 22 and wake hour 6 the alignment is exactly 100. *)
Theorem C2_metrics_within_bounds (p : profile) (bh wh : Z) :
  hour_field (bedtime p) = Ok bh ->
  hour_field (wakeTime p) = Ok wh ->
  0 <= bh <= 23 -> 0 <= wh <= 23 ->
  Py.lt (PyInt 0) (sleepGoal p) = true ->
  exists a, calculate_sleep_metrics p = Ok a /\
    Py.le (PyInt 0) (sleep_debt a) = true /\
    Py.le (PyInt 0) (sleep_efficiency a) = true /\
    Py.le (sleep_efficiency a) (PyInt 100) = true /\
    0 <= circadian_alignment a <= 100 /\
    (bh = 22 -> wh = 6 -> circadian_alignment a = 100).
Proof.
  intros Hb Hw Rb Rw Hg.
  rewrite calculate_sleep_metrics_fields, Hb, Hw. cbn [bind].
  pose proof (metrics_of_hours_ok _ bh wh Rb Rw (positive_goal_not_zero _ Hg))
    as (diff & pc & al & E & Eal & Hal & Hpc).
  eexists. split; [exact E|].
  cbn [sleep_debt sleep_efficiency circadian_alignment].
  split; [apply max_zero_lower|].
  split; [apply min_hundred_lower; auto|].
  split; [apply min_hundred_upper|].
  split; [exact Hal|].
  intros -> ->. change (calculate_circadian_alignment 22 6) with (@Ok Z 100) in Eal.
  injection Eal as <-. reflexivity.
Qed.

(** C2, on the default profile: 22:00 to 06:00 with a goal of 8 hours. *)
Lemma C2_default_profile_alignment :
  exists a,
    calculate_sleep_metrics
      {| bedtime := "22:00"; wakeTime := "06:00"; sleepGoal := PyInt 8;
         lifestyle := "moderate"; sleepIssues := [] |} = Ok a
    /\ Py.le (PyInt 0) (sleep_debt a) = true
    /\ Py.le (PyInt 0) (sleep_efficiency a) = true
    /\ Py.le (sleep_efficiency a) (PyInt 100) = true
    /\ circadian_alignment a = 100.
Proof.
  destruct (C2_metrics_within_bounds
              {| bedtime := "22:00"; wakeTime := "06:00"; sleepGoal := PyInt 8;
                 lifestyle := "moderate"; sleepIssues := [] |} 22 6)
    as (a & E & H1 & H2 & H3 & _ & H5); try reflexivity; try lia.
  exists a. repeat split; auto.
Defined.

(** C3 as the specification states it fails: with bedtime 22:00 the
    anxiety entry is timed 21:30, while 1 hour 30 minutes before bedtime
    is 20:30. *)
Lemma C3_anxiety_entry_is_not_ninety_minutes_before :
  let p := {| bedtime := "22:00"; wakeTime := "06:00"; sleepGoal := PyInt 8;
              lifestyle := "moderate"; sleepIssues := ["anxiety"] |} in
  exists a w s r,
    calculate_sleep_metrics p = Ok a /\
    generate_ai_recommendations p a = Ok [w; s; r] /\
    id r = "anxiety-relief" /\
    time r = "21:30" /\
    clock_minus 22 0 90 = "20:30" /\
    time r <> clock_minus 22 0 90.
Proof.
  cbv zeta. do 4 eexists.
  split; [vm_compute; reflexivity|].
  split; [vm_compute; reflexivity|].
  split; [reflexivity|].
  split; [reflexivity|].
  split; [vm_compute; reflexivity|].
  vm_compute. discriminate.
Qed.

(** C3, amended.  For every profile whose bedtime is a time of day, the
    list is two entries followed by one entry per occurrence of a known
    tag, in input order: each "anxiety" adds one entry with id
    "anxiety-relief" whose time is the helper's result for offsets
    (-1 hour, +30 minutes), which is 30 minutes before bedtime for every
    bedtime outside 00:30-00:59; each "temperature" adds one entry timed
    1 hour before bedtime. *)
Theorem C3_issue_entries_per_occurrence (p : profile) (a : analysis) (h m : Z) :
  hour_field (bedtime p) = Ok h ->
  minute_field (bedtime p) = Ok m ->
  0 <= h <= 23 -> 0 <= m <= 59 ->
  exists t_anxiety base recs,
    calculate_time_offset (bedtime p) (-1) 30 = Ok t_anxiety /\
    (~ (h = 0 /\ 30 <= m) -> t_anxiety = clock_minus h m 30) /\
    generate_ai_recommendations p a = Ok recs /\
    List.length base = 2%nat /\
    recs = base ++ flat_map (issue_entry t_anxiety (clock_minus h m 60)) (sleepIssues p) /\
    List.length (filter (fun r => String.eqb (id r) "anxiety-relief") recs)
      = count_occ string_dec (sleepIssues p) "anxiety".
Proof.
  intros Hh Hm Rh Rm.
  exists (offset_fields h m (-1) 30).
  exists [wind_down (offset_fields h m (-2) 0); screen_cutoff (offset_fields h m (-1) 0)].
  eexists.
  split; [rewrite calculate_time_offset_fields, Hh, Hm; reflexivity|].
  split; [intros Hex; apply offset_fields_half_hour_back; assumption|].
  split; [apply (generate_ai_recommendations_parsed p a h m Hh Hm)|].
  split; [reflexivity|].
  rewrite <- (offset_fields_one_hour_back h m) by assumption.
  split; [reflexivity|].
  cbn [filter id wind_down screen_cutoff String.eqb Ascii.eqb].
  change (String.eqb "wind-down" "anxiety-relief") with false.
  change (String.eqb "screen-cutoff" "anxiety-relief") with false.
  cbv iota. apply count_flat_map_issue_entry.
Qed.

(** C3 amended, on the profile of the test script's shape: bedtime 22:30
    with the tags anxiety, screen-time and temperature. *)
Lemma C3_entries_for_bedtime_2230 :
  exists t_anxiety base recs,
    calculate_time_offset "22:30" (-1) 30 = Ok t_anxiety /\
    t_anxiety = "22:00" /\
    generate_ai_recommendations
      {| bedtime := "22:30"; wakeTime := "06:30"; sleepGoal := PyInt 8;
         lifestyle := "moderate";
         sleepIssues := ["anxiety"; "screen-time"; "temperature"] |}
      {| sleep_duration := 8; sleep_debt := PyInt 0;
         sleep_efficiency := PyInt 100; circadian_alignment := 100 |} = Ok recs /\
    List.length base = 2%nat /\
    recs = base ++ [anxiety_relief t_anxiety; temperature_control "21:30"].
Proof.
  destruct (C3_issue_entries_per_occurrence
              {| bedtime := "22:30"; wakeTime := "06:30"; sleepGoal := PyInt 8;
                 lifestyle := "moderate";
                 sleepIssues := ["anxiety"; "screen-time"; "temperature"] |}
              {| sleep_duration := 8; sleep_debt := PyInt 0;
                 sleep_efficiency := PyInt 100; circadian_alignment := 100 |}
              22 30)
    as (t & base & recs & Et & Ht & Eg & Hl & Er & _);
    try reflexivity; try lia.
  exists t, base, recs.
  split; [exact Et|].
  split; [rewrite Ht by lia; vm_compute; reflexivity|].
  split; [exact Eg|].
  split; [exact Hl|exact Er].
Defined.

(** C4.  The helper normalises the hour before it carries the minutes, so
    a carry out of hour 23, or a borrow out of hour 0, leaves the interval
    [0, 23]; a minute offset beyond one hour is carried only once.  The
    two-level borrow of the specification is computed as stated; the
    anxiety entry of a profile with bedtime 00:45 is not. *)
Theorem C4_time_offset_leaves_the_clock :
  calculate_time_offset "00:30" (-1) (-45) = Ok "22:45" /\
  calculate_time_offset "00:45" (-1) 30 = Ok "24:15" /\
  calculate_time_offset "00:30" 0 (-45) = Ok "-1:45" /\
  calculate_time_offset "10:00" 0 200 = Ok "11:140" /\
  generate_ai_recommendations
    {| bedtime := "00:45"; wakeTime := "06:00"; sleepGoal := PyInt 8;
       lifestyle := "moderate"; sleepIssues := ["anxiety"] |}
    {| sleep_duration := 6; sleep_debt := PyInt 2;
       sleep_efficiency := PyInt 75; circadian_alignment := 50 |}
  = Ok [wind_down "22:45"; screen_cutoff "23:45"; anxiety_relief "24:15"].
Proof. repeat split; vm_compute; reflexivity. Qed.

(** C8.  For every profile whose bedtime is a time of day, the list is
    returned and begins with "Wind-down Routine" timed 2 hours before
    bedtime and "Digital Sunset" timed 1 hour before bedtime, both of
    priority "high"; what follows has one entry per known tag only, and a
    tag outside the table can be struck from sleepIssues without changing
    the result. *)
Theorem C8_two_base_recommendations_first (p : profile) (a : analysis) (h m : Z) :
  hour_field (bedtime p) = Ok h ->
  minute_field (bedtime p) = Ok m ->
  0 <= h <= 23 -> 0 <= m <= 59 ->
  (exists w s rest,
     generate_ai_recommendations p a = Ok (w :: s :: rest) /\
     title w = "Wind-down Routine" /\ time w = clock_minus h m 120 /\
     priority w = "high" /\
     title s = "Digital Sunset" /\ time s = clock_minus h m 60 /\
     priority s = "high" /\
     List.length rest = List.length (filter known_issue (sleepIssues p)) /\
     (forall r, In r rest -> id r = "anxiety-relief" \/ id r = "temperature-control"))
  /\ (forall pre tag post,
        sleepIssues p = pre ++ tag :: post -> known_issue tag = false ->
        generate_ai_recommendations p a
        = generate_ai_recommendations (with_issues p (pre ++ post)) a).
Proof.
  intros Hh Hm Rh Rm. split.
  - do 3 eexists.
    split; [apply (generate_ai_recommendations_parsed p a h m Hh Hm)|].
    rewrite <- (offset_fields_two_hours_back h m), <- (offset_fields_one_hour_back h m)
      by assumption.
    repeat (split; [reflexivity|]).
    split.
    + induction (sleepIssues p) as [|issue rest IH]; [reflexivity|].
      cbn [flat_map filter]. rewrite length_app, IH.
      unfold issue_entry, known_issue.
      destruct (String.eqb issue "anxiety"); [reflexivity|].
      destruct (String.eqb issue "temperature"); reflexivity.
    + intros r Hr. apply in_flat_map in Hr. destruct Hr as (issue & _ & Hr).
      unfold issue_entry in Hr.
      destruct (String.eqb issue "anxiety");
        [destruct Hr as [<-|[]]; left; reflexivity|].
      destruct (String.eqb issue "temperature");
        [destruct Hr as [<-|[]]; right; reflexivity|destruct Hr].
  - intros pre tag post Hi Hk. unfold generate_ai_recommendations.
    cbn [with_issues bedtime sleepIssues]. rewrite Hi.
    destruct (calculate_time_offset (bedtime p) (-2) 0); [|reflexivity].
    destruct (calculate_time_offset (bedtime p) (-1) 0); [|reflexivity].
    cbn [bind]. rewrite issue_specific_unknown by exact Hk.
    apply issue_specific_bedtime. reflexivity.
Qed.

(** C8, on the profile of the test script: bedtime 22:30 with the tags
    anxiety and screen-time; the second tag is not in the table. *)
Lemma C8_test_script_profile :
  let p := {| bedtime := "22:30"; wakeTime := "06:30"; sleepGoal := PyInt 8;
              lifestyle := "moderate"; sleepIssues := ["anxiety"; "screen-time"] |} in
  let a := {| sleep_duration := 8; sleep_debt := PyInt 0;
              sleep_efficiency := PyInt 100; circadian_alignment := 100 |} in
  (exists w s rest,
     generate_ai_recommendations p a = Ok (w :: s :: rest) /\
     title w = "Wind-down Routine" /\ time w = "20:30" /\ priority w = "high" /\
     title s = "Digital Sunset" /\ time s = "21:30" /\ priority s = "high" /\
     List.length rest = 1%nat)
  /\ generate_ai_recommendations p a
     = generate_ai_recommendations (with_issues p ["anxiety"]) a.
Proof.
  cbv zeta.
  destruct (C8_two_base_recommendations_first
              {| bedtime := "22:30"; wakeTime := "06:30"; sleepGoal := PyInt 8;
                 lifestyle := "moderate"; sleepIssues := ["anxiety"; "screen-time"] |}
              {| sleep_duration := 8; sleep_debt := PyInt 0;
                 sleep_efficiency := PyInt 100; circadian_alignment := 100 |}
              22 30)
    as [(w & s & rest & E & H1 & H2 & H3 & H4 & H5 & H6 & H7 & _) Hdrop];
    try reflexivity; try lia.
  split.
  - exists w, s, rest. repeat (split; [assumption|]). exact H7.
  - apply (Hdrop ["anxiety"] "screen-time" []); reflexivity.
Defined.

(** C5 as the specification states it fails: a wakeTime whose minute
    field is not an integer is accepted, and the profile is evaluated
    with status 200. *)
Lemma C5_unparseable_wake_minutes_are_accepted :
  let data := {| get_bedtime := Some "22:00"; get_wakeTime := Some "06:xx";
                 get_sleepGoal := Some (PyInt 8); get_lifestyle := None;
                 get_sleepIssues := None; other_keys := false |} in
  minute_field "06:xx" = Raise ValueError /\
  status (analyze_sleep_profile data) = 200 /\
  ~ client_fault (status (analyze_sleep_profile data)) /\
  exists p a recs,
    payload (analyze_sleep_profile data) = ProfileSuccess p a recs /\
    wakeTime p = "06:xx" /\ sleep_duration a = 8.
Proof.
  cbv zeta.
  split; [vm_compute; reflexivity|].
  match goal with
  | |- status ?r = _ /\ _ => assert (E : status r = 200) by (vm_compute; reflexivity)
  end.
  split; [exact E|].
  split; [rewrite E; unfold client_fault; lia|].
  do 3 eexists. split; [vm_compute; reflexivity|]. split; reflexivity.
Qed.

(** C5, amended.  For every non-empty request, the evaluation reads three
    fields of the two time strings: the hour and minute fields of bedtime
    and the hour field of wakeTime.  When one of them is missing or is
    not an integer literal, the answer is the error result of status 500
    that carries the exception; when the three parse, with hours of the
    day and a goal that is not zero, the answer is a success of status
    200, whatever else the strings hold. *)
Theorem C5_unparsed_time_field_gives_500 (data : request_data) :
  is_empty data = false ->
  let p := extract_profile data in
  ((exists e, hour_field (bedtime p) = Raise e) \/
   (exists e, minute_field (bedtime p) = Raise e) \/
   (exists e, hour_field (wakeTime p) = Raise e) ->
   exists e,
     analyze_sleep_profile data = mk_response 500 (ProfileFailure (OfException e)))
  /\ (forall bh bm wh,
        hour_field (bedtime p) = Ok bh -> minute_field (bedtime p) = Ok bm ->
        hour_field (wakeTime p) = Ok wh ->
        0 <= bh <= 23 -> 0 <= wh <= 23 -> is_zero_num (sleepGoal p) = false ->
        exists a recs,
          analyze_sleep_profile data = mk_response 200 (ProfileSuccess p a recs)).
Proof.
  intros Hne p. unfold analyze_sleep_profile. rewrite Hne. fold p. split.
  - intros H. rewrite calculate_sleep_metrics_fields.
    destruct (hour_field (bedtime p)) as [bh|e] eqn:Ebh; cbn [bind]; [|eauto].
    destruct (hour_field (wakeTime p)) as [wh|e] eqn:Ewh; cbn [bind]; [|eauto].
    destruct (metrics_of_hours (sleepGoal p) bh wh) as [a|e]; cbn [bind]; [|eauto].
    destruct H as [[e He]|[[e He]|[e He]]]; try discriminate He.
    destruct (generate_ai_recommendations_unparsed p a) as [e' He'];
      [right; eauto|].
    rewrite He'. cbn [bind]. eauto.
  - intros bh bm wh Hbh Hbm Hwh Rb Rw Hg.
    rewrite calculate_sleep_metrics_fields, Hbh, Hwh. cbn [bind].
    destruct (metrics_of_hours_ok _ bh wh Rb Rw Hg) as (diff & pc & al & E & _).
    rewrite E. cbn [bind].
    rewrite (generate_ai_recommendations_parsed p _ bh bm Hbh Hbm). cbn [bind].
    eauto.
Qed.

(** C5 amended, on a bedtime without a colon. *)
Lemma C5_bedtime_without_colon :
  exists e,
    analyze_sleep_profile
      {| get_bedtime := Some "2200"; get_wakeTime := Some "06:00";
         get_sleepGoal := None; get_lifestyle := None;
         get_sleepIssues := None; other_keys := false |}
    = mk_response 500 (ProfileFailure (OfException e)).
Proof.
  apply (C5_unparsed_time_field_gives_500
           {| get_bedtime := Some "2200"; get_wakeTime := Some "06:00";
              get_sleepGoal := None; get_lifestyle := None;
              get_sleepIssues := None; other_keys := false |});
    [reflexivity|].
  right. left. exists IndexError. reflexivity.
Defined.

(** C6 as the specification states it fails: a zero sleepGoal is answered
    with status 500, which is not a client-fault status. *)
Lemma C6_zero_goal_is_answered_500 :
  let data := {| get_bedtime := None; get_wakeTime := None;
                 get_sleepGoal := Some (PyInt 0); get_lifestyle := None;
                 get_sleepIssues := None; other_keys := false |} in
  analyze_sleep_profile data
    = mk_response 500 (ProfileFailure (OfException ZeroDivisionError)) /\
  ~ client_fault (status (analyze_sleep_profile data)).
Proof.
  cbv zeta.
  match goal with
  | |- ?r = ?v /\ _ => assert (E : r = v) by (vm_compute; reflexivity)
  end.
  split; [exact E|].
  rewrite E. cbn [status]. unfold client_fault. lia.
Qed.

(** C6, amended.  For every non-empty request whose sleepGoal is zero
    (the int 0 or a float zero), the evaluation fails and the failure is
    caught at the request boundary: the answer is the error result of
    status 500 that carries the exception, which is ZeroDivisionError
    when the hours are hours of the day.  For a sleepGoal that is not
    zero, the metrics returned have
    sleep_efficiency = min(100, (duration / sleepGoal) * 100), and they
    are returned whenever the hours are hours of the day. *)
Theorem C6_zero_goal_gives_500 (data : request_data) :
  is_empty data = false ->
  let p := extract_profile data in
  (is_zero_num (sleepGoal p) = true ->
     (exists e,
        analyze_sleep_profile data = mk_response 500 (ProfileFailure (OfException e)))
     /\ (forall bh wh,
          hour_field (bedtime p) = Ok bh -> hour_field (wakeTime p) = Ok wh ->
          0 <= bh <= 23 -> 0 <= wh <= 23 ->
          analyze_sleep_profile data
          = mk_response 500 (ProfileFailure (OfException ZeroDivisionError))))
  /\ (is_zero_num (sleepGoal p) = false ->
     (forall a, calculate_sleep_metrics p = Ok a ->
        exists ratio percent,
          true_divide (PyInt (sleep_duration a)) (sleepGoal p) = Ok ratio /\
          mul ratio (PyInt 100) = Ok percent /\
          sleep_efficiency a = Py.min (PyInt 100) percent)
     /\ (forall bh wh,
          hour_field (bedtime p) = Ok bh -> hour_field (wakeTime p) = Ok wh ->
          0 <= bh <= 23 -> 0 <= wh <= 23 ->
          exists a, calculate_sleep_metrics p = Ok a)).
Proof.
  intros Hne p. unfold analyze_sleep_profile. rewrite Hne. fold p.
  rewrite calculate_sleep_metrics_fields.
  split; intros Hg; split.
  - destruct (hour_field (bedtime p)) as [bh|e]; cbn [bind]; [|eauto].
    destruct (hour_field (wakeTime p)) as [wh|e]; cbn [bind]; [|eauto].
    destruct (metrics_of_hours_zero_goal _ bh wh Hg) as [e He]. rewrite He.
    cbn [bind]. eauto.
  - intros bh wh Hbh Hwh Rb Rw. rewrite Hbh, Hwh. cbn [bind].
    rewrite (metrics_of_hours_zero_division _ bh wh Rb Rw Hg). reflexivity.
  - intros a.
    destruct (hour_field (bedtime p)) as [bh|e]; cbn [bind]; [|discriminate].
    destruct (hour_field (wakeTime p)) as [wh|e]; cbn [bind]; [|discriminate].
    apply metrics_of_hours_efficiency.
  - intros bh wh Hbh Hwh Rb Rw. rewrite Hbh, Hwh. cbn [bind].
    destruct (metrics_of_hours_ok _ bh wh Rb Rw Hg) as (diff & pc & al & E & _).
    eauto.
Qed.

(** C6 amended, on the default times with a float zero as the goal. *)
Lemma C6_float_zero_goal :
  analyze_sleep_profile
    {| get_bedtime := None; get_wakeTime := None;
       get_sleepGoal := Some (PyFloat (S754_zero false)); get_lifestyle := None;
       get_sleepIssues := None; other_keys := false |}
  = mk_response 500 (ProfileFailure (OfException ZeroDivisionError)).
Proof.
  apply (C6_zero_goal_gives_500
           {| get_bedtime := None; get_wakeTime := None;
              get_sleepGoal := Some (PyFloat (S754_zero false)); get_lifestyle := None;
              get_sleepIssues := None; other_keys := false |}
           eq_refl) with (bh := 22) (wh := 6);
    try reflexivity; lia.
Defined.

(** C7.  For every table, target age A and gender G, the rows the insight
    is computed from are exactly the rows of the table, in their order,
    whose age lies in [A - 5, A + 5] and whose gender equals G up to case,
    the gender test being dropped when G is "all" in any case (the
    selection is then the age-only one).  When no row is selected the
    answer is the error result of status 404 with the message
    "No data found for the specified criteria"; otherwise it is a success
    whose sample size is the number of selected rows. *)
Theorem C7_filtered_insight_selection
    (mean : list float -> float) (round_to : float -> Z -> float)
    (df : list sleep_record) (age : Z) (gender : string) :
  select_records df age gender = filter (matches_criteria age gender) df
  /\ (forall r, In r (select_records df age gender) <->
        In r df /\ age - 5 <= Age r <= age + 5 /\
        (lower gender = "all" \/ lower (Gender r) = lower gender))
  /\ (lower gender = "all" -> select_records df age gender = filter_age df age)
  /\ (select_records df age gender = [] ->
      get_personalized_insights mean round_to (Some df) age gender
      = mk_response 404
          (InsightsFailure (Message "No data found for the specified criteria")))
  /\ (select_records df age gender <> [] ->
      exists i,
        get_personalized_insights mean round_to (Some df) age gender
        = mk_response 200 (InsightsSuccess i) /\
        sample_size i = Z.of_nat (List.length (select_records df age gender)) /\
        recommendations i
        = generate_recommendations mean (select_records df age gender) age gender).
Proof.
  split; [apply select_records_filter|].
  split.
  { intros r. rewrite select_records_filter, filter_In. unfold matches_criteria.
    rewrite !andb_true_iff, orb_true_iff, !Z.leb_le, !String.eqb_eq. tauto. }
  split.
  { intros Hall. unfold select_records. rewrite Hall. reflexivity. }
  unfold get_personalized_insights.
  split.
  - intros ->. reflexivity.
  - intros Hne.
    destruct (select_records df age gender) as [|r l] eqn:E; [contradiction|].
    cbn [List.length]. rewrite Nat2Z.inj_succ.
    destruct (Z.eqb_spec (Z.succ (Z.of_nat (List.length l))) 0); [lia|].
    eexists. split; [reflexivity|]. split; reflexivity.
Qed.

(** C9.  In every evaluation of the rule table the output keeps entries of
    the table in the table's order, each at most once; the two
    sleep-duration entries never appear together, nor do the two
    productivity entries, and the two sleep-quality entries appear
    together or not at all. *)
Theorem C9_rule_table_exclusions
    (mean : list float -> float)
    (df : list sleep_record) (age : Z) (gender : string) :
  let out := generate_recommendations mean df age gender in
  subsequence out rule_table /\
  NoDup out /\
  ~ (In rule_sleep_short out /\ In rule_sleep_long out) /\
  ~ (In rule_productivity_high out /\ In rule_productivity_low out) /\
  (In rule_quality_environment out <-> In rule_quality_routine out).
Proof.
  cbv zeta. apply rule_table_check_sound.
  unfold generate_recommendations. cbv zeta.
  generalize (mean (map Total_Sleep_Hours df)) (mean (map Sleep_Quality df))
             (mean (map Productivity_Score df)).
  intros avg_sleep avg_quality avg_productivity.
  destruct (lt (PyFloat avg_sleep) (PyInt 7));
    [|destruct (lt (PyInt 9) (PyFloat avg_sleep))];
    (destruct (lt (PyFloat avg_quality) (PyInt 7));
     (destruct (lt (PyInt 85) (PyFloat avg_productivity));
        [|destruct (lt (PyFloat avg_productivity) (PyInt 75))]);
     (destruct (age <? 30); [|destruct (50 <? age)]));
    vm_compute; reflexivity.
Qed.

(** C10.  The recommendation list of the filtered insights does not
    depend on the gender argument. *)
Theorem C10_recommendations_ignore_gender
    (mean : list float -> float)
    (df : list sleep_record) (age : Z) (gender gender' : string) :
  generate_recommendations mean df age gender
  = generate_recommendations mean df age gender'.
Proof. reflexivity. Qed.

(* ===================================================================== *)
(** ** Further properties: the time-offset helper *)
(* ===================================================================== *)

Lemma format_time_fields_in_day (h : Z) :
  0 <= h < 24 ->
  forall m, 0 <= m < 60 ->
  hour_field (format_time h m) = Ok h /\ minute_field (format_time h m) = Ok m.
Proof.
  intros Hh.
  pose (ok := fun (r : result Z) (z : Z) =>
                match r with Ok v => v =? z | Raise _ => false end).
  pose (check := fun h => forallb
           (fun m => ok (hour_field (format_time h m)) h
                     && ok (minute_field (format_time h m)) m)
           (map Z.of_nat (seq 0 60))).
  assert (H : check h = true).
  { apply (Z_range_forall check 24); [vm_compute; reflexivity|lia]. }
  intros m Hm. unfold check in H.
  pose proof (Z_range_forall _ 60 H m ltac:(lia)) as Hhm. cbv beta in Hhm.
  apply andb_true_iff in Hhm. destruct Hhm as [H1 H2]. unfold ok in H1, H2.
  destruct (hour_field (format_time h m)); [|discriminate H1].
  destruct (minute_field (format_time h m)); [|discriminate H2].
  apply Z.eqb_eq in H1, H2. subst. split; reflexivity.
Qed.

Lemma offset_fields_hours_only (h m ho : Z) :
  0 <= m <= 59 -> offset_fields h m ho 0 = format_time ((h + ho) mod 24) m.
Proof.
  intros Hm. unfold offset_fields. rewrite handle_hour_overflow_mod, Z.add_0_r.
  destruct (Z.leb_spec 60 m); [lia|].
  destruct (Z.ltb_spec m 0); [lia|]. reflexivity.
Qed.



(** X2.  For a base time with minute in [0, 59] and a minute offset of
    at most one hour either way, the helper returns the wall-clock time
    base plus offset, unless the wrapped hour is 23 and the minutes carry
    up, or the wrapped hour is 0 and the minutes borrow: then it prints
    hour 24, respectively hour -1. *)
Theorem X2_time_offset_right_except_at_day_edges
    (base_time : string) (h m ho mo : Z) :
  hour_field base_time = Ok h ->
  minute_field base_time = Ok m ->
  0 <= m <= 59 -> -60 <= mo <= 60 ->
  let hh := (h + ho) mod 24 in
  (~ (hh = 23 /\ 60 <= m + mo) -> ~ (hh = 0 /\ m + mo < 0) ->
   calculate_time_offset base_time ho mo
   = Ok (clock_minus h m (- (60 * ho + mo))))
  /\ (hh = 23 -> 60 <= m + mo ->
      calculate_time_offset base_time ho mo = Ok (format_time 24 (m + mo - 60)))
  /\ (hh = 0 -> m + mo < 0 ->
      calculate_time_offset base_time ho mo = Ok (format_time (-1) (m + mo + 60))).
Proof.
  intros Hh Hm Rm Rmo hh. rewrite calculate_time_offset_fields, Hh, Hm. cbn [bind].
  unfold offset_fields. rewrite handle_hour_overflow_mod. fold hh.
  pose proof (Z.mod_pos_bound (h + ho) 24 ltac:(lia)) as Hb. fold hh in Hb.
  assert (Hq : h + ho = 24 * ((h + ho) / 24) + hh) by (apply Z.div_mod; lia).
  set (q := (h + ho) / 24) in *. clearbody q hh.
  unfold clock_minus.
  assert (Ht : forall H M, 0 <= H <= 23 -> 0 <= M <= 59 ->
             60 * H + M = 60 * hh + (m + mo) ->
             format_time H M
             = format_time ((60 * h + m - - (60 * ho + mo)) mod 1440 / 60)
                           ((60 * h + m - - (60 * ho + mo)) mod 1440 mod 60)).
  { intros H M RH RM E.
    replace (60 * h + m - - (60 * ho + mo)) with (60 * H + M + q * 1440) by lia.
    rewrite Z.mod_add by lia. rewrite Z.mod_small by lia.
    f_equal.
    - apply Z.div_unique with (r := M); lia.
    - apply Z.mod_unique with (q := H); lia. }
  destruct (Z.leb_spec 60 (m + mo)) as [Hge|Hlt].
  - destruct (Z.ltb_spec (m + mo - 60) 0); [lia|].
    split; [|split].
    + intros N1 N2. f_equal. apply Ht; lia.
    + intros -> _. reflexivity.
    + intros _ ?. lia.
  - destruct (Z.ltb_spec (m + mo) 0) as [Hneg|Hpos].
    + split; [|split].
      * intros N1 N2. f_equal. apply Ht; lia.
      * intros _ ?. lia.
      * intros -> _. reflexivity.
    + split; [|split].
      * intros N1 N2. f_equal. apply Ht; lia.
      * intros _ ?. lia.
      * intros _ ?. lia.
Qed.

Lemma X2_on_a_quarter_to_midnight :
  calculate_time_offset "23:45" 0 30 = Ok (format_time 24 15) /\
  calculate_time_offset "22:45" 0 30 = Ok (clock_minus 22 45 (- (60 * 0 + 30))).
Proof.
  split.
  - apply (X2_time_offset_right_except_at_day_edges "23:45" 23 45 0 30);
      try reflexivity; lia.
  - apply (X2_time_offset_right_except_at_day_edges "22:45" 22 45 0 30);
      try reflexivity; try lia; vm_compute; intros [E _]; discriminate E.
Defined.

(** X3.  Whole-hour offsets compose: on a time of day, offsetting by [a]
    hours and then the result by [b] hours is offsetting by [a + b]
    hours, so offsetting back by [-a] returns the base time, zero-padded.
    The helper's output is accepted as its input. *)
Theorem X3_hour_offsets_compose (base_time : string) (h m a b : Z) :
  hour_field base_time = Ok h ->
  minute_field base_time = Ok m ->
  0 <= h <= 23 -> 0 <= m <= 59 ->
  exists t,
    calculate_time_offset base_time a 0 = Ok t /\
    calculate_time_offset t b 0 = calculate_time_offset base_time (a + b) 0 /\
    calculate_time_offset t (- a) 0 = Ok (format_time h m).
Proof.
  intros Hh Hm Rh Rm.
  exists (format_time ((h + a) mod 24) m).
  pose proof (Z.mod_pos_bound (h + a) 24 ltac:(lia)) as Hb.
  destruct (format_time_fields_in_day ((h + a) mod 24) ltac:(lia) m ltac:(lia))
    as [Fh Fm].
  rewrite !calculate_time_offset_fields, Hh, Hm, Fh, Fm. cbn [bind].
  rewrite !offset_fields_hours_only by exact Rm.
  split; [reflexivity|]. split; f_equal; f_equal.
  - rewrite Z.add_mod_idemp_l by lia. f_equal. lia.
  - rewrite Z.add_mod_idemp_l by lia.
    replace (h + a + - a) with h by lia. apply Z.mod_small. lia.
Qed.

Lemma X3_on_the_default_bedtime :
  exists t,
    calculate_time_offset "22:00" 5 0 = Ok t /\
    calculate_time_offset t (-7) 0 = calculate_time_offset "22:00" (5 + -7) 0 /\
    calculate_time_offset t (- 5) 0 = Ok (format_time 22 0).
Proof.
  apply (X3_hour_offsets_compose "22:00" 22 0 5 (-7)); try reflexivity; lia.
Defined.

Lemma split_no_colon (s : string) : no_colon s = true -> split ":" s = [s].
Proof.
  induction s as [|c r IH]; cbn [no_colon split]; intros H; [reflexivity|].
  apply andb_true_iff in H. destruct H as [Hc Hr].
  apply negb_true_iff in Hc. rewrite Hc, (IH Hr). reflexivity.
Qed.

Lemma split_with_colon (s : string) :
  no_colon s = false -> exists a b rest, split ":" s = a :: b :: rest.
Proof.
  induction s as [|c r IH]; cbn [no_colon split]; intros H; [discriminate H|].
  destruct (Ascii.eqb c ":") eqn:Ec.
  - destruct r as [|c' r']; cbn [split]; [eauto|].
    destruct (Ascii.eqb c' ":"); [eauto|].
    destruct (split ":" r'); eauto.
  - cbn [negb andb] in H. destruct (IH H) as (a & b & rest & E).
    rewrite E. eauto.
Qed.

Lemma split_head (s : string) : exists a rest, split ":" s = a :: rest.
Proof.
  destruct (no_colon s) eqn:E.
  - rewrite (split_no_colon s E). eauto.
  - destruct (split_with_colon s E) as (a & b & rest & H). rewrite H. eauto.
Qed.

Lemma int_of_unsigned_raises (s : string) (e : py_exception) :
  int_of_unsigned s = Raise e -> e = ValueError.
Proof.
  unfold int_of_unsigned. destruct s as [|c r]; [congruence|].
  destruct (Ascii.eqb c "_"); [congruence|].
  destruct (scan_digits _ _ _ _) as [[[v n] rest]|]; [|congruence].
  destruct (n =? 0); [congruence|].
  destruct (skip_spaces rest); [|congruence].
  destruct (int_max_str_digits <? n); congruence.
Qed.

(** [int()] on a string raises nothing but ValueError. *)
Lemma int_raises (s : string) (e : py_exception) : Py.int s = Raise e -> e = ValueError.
Proof.
  unfold Py.int. destruct (skip_spaces s) as [|c r]; [congruence|].
  destruct (Ascii.eqb c "+"); [apply int_of_unsigned_raises|].
  destruct (Ascii.eqb c "-"); [|apply int_of_unsigned_raises].
  destruct (int_of_unsigned r) eqn:E; cbn [bind]; [discriminate|].
  intros H. injection H as <-. apply (int_of_unsigned_raises _ _ E).
Qed.

Lemma hour_field_raises (s : string) (e : py_exception) :
  hour_field s = Raise e -> e = ValueError.
Proof.
  unfold hour_field. destruct (split_head s) as (a & rest & E). rewrite E.
  cbn [index nth_error bind]. apply int_raises.
Qed.



(** X5.  A bedtime given as a bare hour, without a colon, is enough for
    the metrics but not for the recommendations: the metrics are
    computed, and the request is then answered 500 with IndexError. *)
Theorem X5_bare_hour_bedtime_gives_500 (data : request_data) (bh wh : Z) :
  is_empty data = false ->
  let p := extract_profile data in
  no_colon (bedtime p) = true ->
  Py.int (bedtime p) = Ok bh ->
  hour_field (wakeTime p) = Ok wh ->
  0 <= bh <= 23 -> 0 <= wh <= 23 ->
  is_zero_num (sleepGoal p) = false ->
  (exists a, calculate_sleep_metrics p = Ok a /\
             sleep_duration a = hour_difference bh wh)
  /\ analyze_sleep_profile data
     = mk_response 500 (ProfileFailure (OfException IndexError)).
Proof.
  intros Hne p Hn Hi Hw Rb Rw Hg.
  assert (Hh : hour_field (bedtime p) = Ok bh).
  { unfold hour_field. rewrite (split_no_colon _ Hn). exact Hi. }
  destruct (metrics_of_hours_ok _ bh wh Rb Rw Hg) as (diff & pc & al & E & _).
  assert (Em : calculate_sleep_metrics p = Ok
             {| sleep_duration := hour_difference bh wh;
                sleep_debt := Py.max (PyInt 0) diff;
                sleep_efficiency := Py.min (PyInt 100) pc;
                circadian_alignment := al |}).
  { rewrite calculate_sleep_metrics_fields, Hh, Hw. exact E. }
  split; [eexists; split; [exact Em|reflexivity]|].
  unfold analyze_sleep_profile. rewrite Hne. fold p. rewrite Em. cbn [bind].
  unfold generate_ai_recommendations.
  rewrite (calculate_time_offset_fields (bedtime p) (-2) 0), Hh. cbn [bind].
  unfold minute_field. rewrite (split_no_colon _ Hn). reflexivity.
Qed.

Lemma X5_on_bedtime_22 :
  (exists a,
     calculate_sleep_metrics
       (extract_profile
          {| get_bedtime := Some "22"; get_wakeTime := None; get_sleepGoal := None;
             get_lifestyle := None; get_sleepIssues := None; other_keys := false |})
     = Ok a /\ sleep_duration a = hour_difference 22 6)
  /\ analyze_sleep_profile
       {| get_bedtime := Some "22"; get_wakeTime := None; get_sleepGoal := None;
          get_lifestyle := None; get_sleepIssues := None; other_keys := false |}
     = mk_response 500 (ProfileFailure (OfException IndexError)).
Proof.
  apply (X5_bare_hour_bedtime_gives_500
           {| get_bedtime := Some "22"; get_wakeTime := None; get_sleepGoal := None;
              get_lifestyle := None; get_sleepIssues := None; other_keys := false |}
           22 6);
    try reflexivity; lia.
Defined.

(* ===================================================================== *)
(** ** Further properties: the alignment score and the metrics *)
(* ===================================================================== *)

Lemma Ok_inj {A : Type} (a b : A) : Ok a = Ok b -> a = b.
Proof. congruence. Qed.

Lemma circadian_alignment_closed_form (bh wh : Z) :
  calculate_circadian_alignment bh wh
  = Ok (5 * (hour_score bh 22 + hour_score wh 6)).
Proof.
  unfold calculate_circadian_alignment, hour_score.
  replace (Z.max 0 (100 - Z.abs (bh - 22) * 10) + Z.max 0 (100 - Z.abs (wh - 6) * 10))
    with (10 * (Z.max 0 (10 - Z.abs (bh - 22)) + Z.max 0 (10 - Z.abs (wh - 6))))
    by lia.
  set (k := Z.max 0 (10 - Z.abs (bh - 22)) + Z.max 0 (10 - Z.abs (wh - 6))).
  assert (Hk : 0 <= k < Z.of_nat 21) by (unfold k; lia). clearbody k.
  pose (check := fun k => match bind (int_true_divide (10 * k) 2) Py.round with
                          | Ok r => r =? 5 * k
                          | Raise _ => false
                          end).
  assert (H : check k = true).
  { apply (Z_range_forall check 21); [vm_compute; reflexivity|exact Hk]. }
  unfold check in H.
  destruct (bind (int_true_divide (10 * k) 2) Py.round) as [r|e]; [|discriminate H].
  apply Z.eqb_eq in H. subst r. reflexivity.
Qed.

(** X6.  For all integer hours the alignment score is computed without
    an exception, and the division by two and the rounding are exact:
    the score is five times the sum of the two hour scores, a multiple
    of 5 in [0, 100]. *)
Theorem X6_alignment_closed_form (bedtime_hour wake_hour : Z) :
  exists r,
    calculate_circadian_alignment bedtime_hour wake_hour = Ok r /\
    r = 5 * (Z.max 0 (10 - Z.abs (bedtime_hour - 22))
             + Z.max 0 (10 - Z.abs (wake_hour - 6))) /\
    0 <= r <= 100 /\ r mod 5 = 0.
Proof.
  eexists. split; [apply circadian_alignment_closed_form|].
  unfold hour_score. split; [reflexivity|]. split; [lia|].
  rewrite Z.mul_comm. apply Z.mod_mul. lia.
Qed.

(** X7.  The score is 100 for bedtime hour 22 with wake hour 6 and for
    no other pair of hours; it is 0 exactly when both hours are ten or
    more hours away from their optimum. *)
Theorem X7_alignment_extremes (bedtime_hour wake_hour : Z) :
  (calculate_circadian_alignment bedtime_hour wake_hour = Ok 100
   <-> bedtime_hour = 22 /\ wake_hour = 6)
  /\ (calculate_circadian_alignment bedtime_hour wake_hour = Ok 0
      <-> 10 <= Z.abs (bedtime_hour - 22) /\ 10 <= Z.abs (wake_hour - 6)).
Proof.
  rewrite circadian_alignment_closed_form. unfold hour_score.
  split; split.
  - intros H. apply Ok_inj in H. split; lia.
  - intros [-> ->]. reflexivity.
  - intros H. apply Ok_inj in H. split; lia.
  - intros [H1 H2]. f_equal. lia.
Qed.

(** X8.  The distance to the optimal bedtime is not taken around the
    clock: every bedtime hour from 0 to 12 earns nothing, midnight
    included, so such a bedtime caps the score at 50. *)
Theorem X8_bedtime_before_noon_earns_nothing (bedtime_hour wake_hour : Z) :
  0 <= bedtime_hour <= 12 ->
  exists r,
    calculate_circadian_alignment bedtime_hour wake_hour = Ok r /\
    calculate_circadian_alignment 12 wake_hour = Ok r /\
    r = 5 * Z.max 0 (10 - Z.abs (wake_hour - 6)) /\
    r <= 50.
Proof.
  intros Hb. rewrite !circadian_alignment_closed_form. unfold hour_score.
  eexists. split; [reflexivity|].
  split; [f_equal; lia|]. split; lia.
Qed.

Lemma X8_on_midnight_bedtime :
  exists r,
    calculate_circadian_alignment 0 6 = Ok r /\
    calculate_circadian_alignment 12 6 = Ok r /\
    r = 5 * Z.max 0 (10 - Z.abs (6 - 6)) /\
    r <= 50.
Proof. apply (X8_bedtime_before_noon_earns_nothing 0 6). lia. Defined.

Lemma metrics_of_hours_debt (g : py_num) (bh wh : Z) (a : analysis) :
  metrics_of_hours g bh wh = Ok a ->
  exists diff,
    sub g (PyInt (hour_difference bh wh)) = Ok diff /\
    sleep_debt a = Py.max (PyInt 0) diff.
Proof.
  unfold metrics_of_hours.
  destruct (sub g _) as [diff|]; [|discriminate]. cbn [bind].
  destruct (true_divide _ g); [|discriminate]. cbn [bind].
  destruct (mul _ _); [|discriminate]. cbn [bind].
  destruct (calculate_circadian_alignment bh wh); [|discriminate]. cbn [bind].
  intros H. injection H as <-. eauto.
Qed.

(** X9.  For hours of the day and a goal that is not zero, the duration
    returned is the wake hour minus the bedtime hour modulo 24: an
    integer of [0, 23], never 24. *)
Theorem X9_duration_is_difference_modulo_24 (p : profile) (bh wh : Z) :
  hour_field (bedtime p) = Ok bh ->
  hour_field (wakeTime p) = Ok wh ->
  0 <= bh <= 23 -> 0 <= wh <= 23 ->
  is_zero_num (sleepGoal p) = false ->
  exists a,
    calculate_sleep_metrics p = Ok a /\
    sleep_duration a = (wh - bh) mod 24 /\
    0 <= sleep_duration a <= 23.
Proof.
  intros Hb Hw Rb Rw Hg.
  rewrite calculate_sleep_metrics_fields, Hb, Hw. cbn [bind].
  destruct (metrics_of_hours_ok _ bh wh Rb Rw Hg) as (diff & pc & al & E & _).
  eexists. split; [exact E|]. cbn [sleep_duration]. unfold hour_difference.
  pose proof (Z.mod_pos_bound (wh - bh) 24 ltac:(lia)).
  destruct (Z.ltb_spec wh bh).
  - split; [|lia]. apply Z.mod_unique with (q := -1); lia.
  - split; [|lia]. apply Z.mod_unique with (q := 0); lia.
Qed.

Lemma X9_on_overnight_sleep :
  exists a,
    calculate_sleep_metrics
      {| bedtime := "23:30"; wakeTime := "07:15"; sleepGoal := PyInt 8;
         lifestyle := "active"; sleepIssues := [] |} = Ok a /\
    sleep_duration a = (7 - 23) mod 24 /\
    0 <= sleep_duration a <= 23.
Proof.
  apply (X9_duration_is_difference_modulo_24
           {| bedtime := "23:30"; wakeTime := "07:15"; sleepGoal := PyInt 8;
              lifestyle := "active"; sleepIssues := [] |} 23 7);
    try reflexivity; lia.
Defined.

Lemma efficiency_capped_iff (d g : Z) :
  0 <= d < 24 -> 1 <= g <= 24 ->
  exists percent,
    bind (true_divide (PyInt d) (PyInt g)) (fun r => mul r (PyInt 100)) = Ok percent /\
    (Py.min (PyInt 100) percent = PyInt 100 <-> g <= d).
Proof.
  intros Hd Hg.
  pose (is_hundred := fun x => match x with PyInt z => z =? 100 | PyFloat _ => false end).
  pose (check := fun d => forallb
           (fun g' => let g := g' + 1 in
              match bind (true_divide (PyInt d) (PyInt g)) (fun r => mul r (PyInt 100)) with
              | Ok pc => Bool.eqb (is_hundred (Py.min (PyInt 100) pc)) (g <=? d)
              | Raise _ => false
              end)
           (map Z.of_nat (seq 0 24))).
  assert (H : check d = true).
  { apply (Z_range_forall check 24); [vm_compute; reflexivity|lia]. }
  unfold check in H.
  pose proof (Z_range_forall _ 24 H (g - 1) ltac:(lia)) as Hg'. cbv beta zeta in Hg'.
  replace (g - 1 + 1) with g in Hg' by lia.
  destruct (bind (true_divide (PyInt d) (PyInt g)) (fun r => mul r (PyInt 100)))
    as [pc|]; [|discriminate Hg'].
  exists pc. split; [reflexivity|].
  apply Bool.eqb_prop in Hg'. unfold is_hundred in Hg'.
  remember (Py.min (PyInt 100) pc) as x eqn:Ex. clear Ex.
  clear H. clear check is_hundred.
  destruct x as [z|f].
  - destruct (Z.eqb_spec z 100) as [Hz|Hne]; destruct (Z.leb_spec g d);
      try discriminate Hg'; split; intros; subst; try lia; try reflexivity;
      congruence.
  - destruct (Z.leb_spec g d); [discriminate Hg'|].
    split; [discriminate|lia].
Qed.

(** X10.  For hours of the day and an integer goal from 1 to 24 hours,
    the debt is the int max(0, goal - duration), and the three
    statements agree: the goal is met (goal <= duration), the debt is
    the int 0, and the efficiency is the int 100 of the cap. *)
Theorem X10_goal_met_iff_capped (p : profile) (bh wh g : Z) :
  hour_field (bedtime p) = Ok bh ->
  hour_field (wakeTime p) = Ok wh ->
  0 <= bh <= 23 -> 0 <= wh <= 23 ->
  sleepGoal p = PyInt g -> 1 <= g <= 24 ->
  exists a,
    calculate_sleep_metrics p = Ok a /\
    sleep_debt a = PyInt (Z.max 0 (g - sleep_duration a)) /\
    (sleep_efficiency a = PyInt 100 <-> g <= sleep_duration a) /\
    (sleep_debt a = PyInt 0 <-> g <= sleep_duration a).
Proof.
  intros Hb Hw Rb Rw Eg Rg.
  assert (Hg : is_zero_num (sleepGoal p) = false).
  { rewrite Eg. cbn. apply Z.eqb_neq. lia. }
  rewrite calculate_sleep_metrics_fields, Hb, Hw. cbn [bind].
  destruct (metrics_of_hours_ok _ bh wh Rb Rw Hg) as (diff & pc & al & E & _).
  pose proof (metrics_of_hours_debt _ _ _ _ E) as (diff' & Ed & Hd).
  pose proof (metrics_of_hours_efficiency _ _ _ _ E) as (ratio & pc' & Er & Ep & He).
  pose proof (metrics_of_hours_duration _ _ _ _ E) as Hdur.
  eexists. split; [exact E|].
  rewrite Hd, He, Hdur. clear Hd He Hdur E.
  cbn [sleep_duration] in Er. rewrite Eg in Ed, Er.
  assert (Rd : 0 <= hour_difference bh wh < 24).
  { unfold hour_difference. destruct (Z.ltb_spec wh bh); lia. }
  set (d := hour_difference bh wh) in *. clearbody d.
  cbn [sub] in Ed. injection Ed as <-.
  destruct (efficiency_capped_iff d g Rd Rg) as (pc0 & E0 & Hcap).
  rewrite Er in E0. cbn [bind] in E0. rewrite Ep in E0. injection E0 as <-.
  assert (Hmax : Py.max (PyInt 0) (PyInt (g - d)) = PyInt (Z.max 0 (g - d))).
  { unfold Py.max, Py.lt, Py.compare.
    destruct (Z.compare_spec 0 (g - d)); f_equal; lia. }
  rewrite Hmax. split; [reflexivity|]. split; [exact Hcap|].
  split; [intros H; injection H as H; lia|intros H; f_equal; lia].
Qed.

Lemma X10_on_the_test_script_profile :
  exists a,
    calculate_sleep_metrics
      {| bedtime := "22:30"; wakeTime := "06:30"; sleepGoal := PyInt 9;
         lifestyle := "moderate"; sleepIssues := [] |} = Ok a /\
    sleep_debt a = PyInt (Z.max 0 (9 - sleep_duration a)) /\
    (sleep_efficiency a = PyInt 100 <-> 9 <= sleep_duration a) /\
    (sleep_debt a = PyInt 0 <-> 9 <= sleep_duration a).
Proof.
  apply (X10_goal_met_iff_capped
           {| bedtime := "22:30"; wakeTime := "06:30"; sleepGoal := PyInt 9;
              lifestyle := "moderate"; sleepIssues := [] |} 22 6 9);
    try reflexivity; lia.
Defined.

Lemma binary_round_aux_not_nan (s : bool) (m e : Z) (l : location) :
  0 <= m -> binary_round_aux prec emax s m e l <> S754_nan.
Proof.
  intros Hm. unfold binary_round_aux.
  pose proof (shr_fexp_bounds m e l Hm) as H1.
  destruct (shr_fexp prec emax m e l) as [mrs1 e1]. destruct H1 as (Hm1 & _).
  pose proof (round_nearest_even_bounds (shr_m mrs1) (loc_of_shr_record mrs1) Hm1) as Hr.
  pose proof (shr_fexp_bounds _ e1 loc_Exact (proj1 Hr)) as H2.
  destruct (shr_fexp prec emax _ e1 loc_Exact) as [mrs2 e2]. destruct H2 as (Hm2 & _).
  destruct (shr_m mrs2); [discriminate| |lia].
  destruct (e2 <=? emax - prec); discriminate.
Qed.

Lemma binary_round_aux_nonpos (m e : Z) (l : location) :
  nonpos_float (binary_round_aux prec emax true m e l).
Proof.
  unfold binary_round_aux.
  destruct (shr_fexp prec emax m e l) as [mrs1 e1].
  destruct (shr_fexp prec emax _ e1 loc_Exact) as [mrs2 e2].
  destruct (shr_m mrs2); [exact I| |exact I].
  destruct (e2 <=? emax - prec); reflexivity.
Qed.

(** A dividend of [0, 2^1023) over a negative divisor: a float that is
    not positive, and not the NaN. *)
Lemma int_true_divide_by_negative (a b : Z) :
  0 <= a -> b < 0 -> Zdigits2 a <= 1023 ->
  exists f, int_true_divide a b = Ok f /\ nonpos_float f /\ f <> S754_nan.
Proof.
  intros Ha Hb Hd. unfold int_true_divide.
  destruct (Z.eqb_spec b 0) as [|_]; [lia|].
  destruct a as [|pa|pa]; destruct b as [|pb|pb]; try lia; cbn [exact_of_int SFdiv].
  - eexists. split; [reflexivity|]. split; [exact I|discriminate].
  - pose proof (SFdiv_core_binary_bounds pa pb 0 0) as H.
    destruct (SFdiv_core_binary prec emax (Zpos pa) 0 (Zpos pb) 0) as [[q e'] l].
    destruct H as (Hq & He & Hdg). cbn [xorb].
    pose proof (binary_round_aux_finite true q e' l Hq
                  ltac:(cbn [Zdigits2] in *; lia) ltac:(lia)) as Hfin.
    pose proof (binary_round_aux_nonpos q e' l) as Hnp.
    pose proof (binary_round_aux_not_nan true q e' l Hq) as Hnn.
    destruct (binary_round_aux prec emax true q e' l) eqn:E;
      try (exfalso; eapply Hfin; reflexivity);
      eexists; (split; [reflexivity|]); (split; [exact Hnp|exact Hnn]).
Qed.

Lemma SFmul_nonpos (x : float) (m : positive) (e : Z) :
  nonpos_float x -> x <> S754_nan ->
  nonpos_float (SFmul prec emax x (S754_finite false m e))
  /\ SFmul prec emax x (S754_finite false m e) <> S754_nan.
Proof.
  destruct x as [s|s| |s mx ex]; cbn [nonpos_float SFmul]; intros H Hn; subst;
    try congruence.
  - split; [exact I|discriminate].
  - split; [reflexivity|discriminate].
  - cbn [xorb]. split; [apply binary_round_aux_nonpos|].
    apply binary_round_aux_not_nan. lia.
Qed.

Lemma nonpos_float_below (x : float) (z : Z) :
  nonpos_float x -> x <> S754_nan -> 0 <= z ->
  Py.le (PyFloat x) (PyInt z) = true /\ (0 < z -> Py.lt (PyFloat x) (PyInt z) = true).
Proof.
  unfold Py.le, Py.lt, Py.compare, compare_float_int.
  destruct x as [s|s| |s m e]; cbn [nonpos_float]; intros H Hn Hz; subst;
    try congruence.
  - destruct (Z.compare_spec 0 z); try lia; split; try reflexivity; intros; lia.
  - split; reflexivity.
  - cbn [cond_Zopp]. destruct (0 <=? e) eqn:E.
    + apply Z.leb_le in E. pose proof (Z.pow_pos_nonneg 2 e ltac:(lia) E).
      assert (- Z.pos m * 2 ^ e < z) as G by nia.
      rewrite G. split; reflexivity.
    + pose proof (Z.pow_pos_nonneg 2 (- e) ltac:(lia) ltac:(apply Z.leb_gt in E; lia)).
      assert (- Z.pos m < z * 2 ^ (- e)) as G by nia.
      rewrite G. split; reflexivity.
Qed.

(** X11.  A negative integer goal is not refused: for hours of the day
    the metrics are returned with a debt of 0 and an efficiency that is
    a float at or below zero. *)
Theorem X11_negative_goal_gives_nonpositive_efficiency (p : profile) (bh wh g : Z) :
  hour_field (bedtime p) = Ok bh ->
  hour_field (wakeTime p) = Ok wh ->
  0 <= bh <= 23 -> 0 <= wh <= 23 ->
  sleepGoal p = PyInt g -> g < 0 ->
  exists a f,
    calculate_sleep_metrics p = Ok a /\
    sleep_debt a = PyInt 0 /\
    sleep_efficiency a = PyFloat f /\
    Py.le (PyFloat f) (PyInt 0) = true.
Proof.
  intros Hb Hw Rb Rw Eg Rg.
  rewrite calculate_sleep_metrics_fields, Hb, Hw. cbn [bind].
  unfold metrics_of_hours. rewrite Eg.
  pose proof (hour_difference_range bh wh Rb Rw) as Hd.
  set (d := hour_difference bh wh) in *. clearbody d.
  destruct (circadian_alignment_bounds bh wh) as (r & Er & _). rewrite Er.
  assert (Hdig : Zdigits2 d <= 1023).
  { pose proof (Zdigits2_mono d 24 ltac:(lia)) as H. cbn in H. lia. }
  destruct (int_true_divide_by_negative d g ltac:(lia) Rg Hdig) as (q & Eq & Hq & Hn).
  cbn [sub true_divide bind]. rewrite Eq. cbn [bind mul to_float].
  rewrite float_of_hundred. cbn [bind].
  destruct (SFmul_nonpos q 7036874417766400 (-46) Hq Hn) as [Hp Hpn].
  set (x := SFmul prec emax q (S754_finite false 7036874417766400 (-46))) in *.
  destruct (nonpos_float_below x 100 Hp Hpn ltac:(lia)) as [_ Hlt].
  destruct (nonpos_float_below x 0 Hp Hpn ltac:(lia)) as [Hle _].
  eexists _, x. split; [reflexivity|]. cbn [sleep_debt sleep_efficiency].
  split.
  - unfold Py.max, Py.lt, Py.compare.
    destruct (Z.compare_spec 0 (g - d)); try reflexivity; lia.
  - split; [|exact Hle]. unfold Py.min. rewrite (Hlt ltac:(lia)). reflexivity.
Qed.

Lemma X11_on_goal_minus_8 :
  exists a f,
    calculate_sleep_metrics
      {| bedtime := "22:00"; wakeTime := "06:00"; sleepGoal := PyInt (-8);
         lifestyle := "moderate"; sleepIssues := [] |} = Ok a /\
    sleep_debt a = PyInt 0 /\
    sleep_efficiency a = PyFloat f /\
    Py.le (PyFloat f) (PyInt 0) = true.
Proof.
  apply (X11_negative_goal_gives_nonpositive_efficiency
           {| bedtime := "22:00"; wakeTime := "06:00"; sleepGoal := PyInt (-8);
              lifestyle := "moderate"; sleepIssues := [] |} 22 6 (-8));
    try reflexivity; lia.
Defined.

Lemma float_of_int_raises (z : Z) (e : py_exception) :
  float_of_int z = Raise e -> e = OverflowError.
Proof.
  unfold float_of_int. destruct (binary_normalize prec emax z 0 false); congruence.
Qed.

Lemma to_float_raises (x : py_num) (e : py_exception) :
  to_float x = Raise e -> e = OverflowError.
Proof. destruct x; cbn [to_float]; [apply float_of_int_raises|discriminate]. Qed.

Lemma metrics_of_hours_raises (g : py_num) (bh wh : Z) (e : py_exception) :
  metrics_of_hours g bh wh = Raise e ->
  e = OverflowError \/ (e = ZeroDivisionError /\ is_zero_num g = true).
Proof.
  unfold metrics_of_hours.
  set (d := hour_difference bh wh). clearbody d.
  destruct (circadian_alignment_bounds bh wh) as (r & Er & _). rewrite Er.
  destruct g as [z|f]; cbn [sub true_divide bind is_zero_num].
  - unfold int_true_divide. destruct (Z.eqb_spec z 0) as [->|Hz]; cbn [bind].
    + intros H. injection H as <-. right. split; reflexivity.
    + destruct (SFdiv _ _ _ _); cbn [bind mul to_float];
        rewrite ?float_of_hundred; cbn [bind]; try discriminate.
      intros H. injection H as <-. left. reflexivity.
  - cbn [to_float bind].
    destruct (float_of_int d) as [fd|e'] eqn:Ed; cbn [bind].
    + destruct (is_zero f); cbn [bind mul to_float].
      * intros H. injection H as <-. right. split; reflexivity.
      * rewrite float_of_hundred. cbn [bind]. discriminate.
    + intros H. injection H as <-. left. apply (float_of_int_raises _ _ Ed).
Qed.

(** X12.  The metrics never raise IndexError.  They raise ValueError
    exactly when the first colon-separated field of bedtime, or else of
    wakeTime, is not an integer literal; ZeroDivisionError only for a
    zero goal; anything else is an OverflowError of the float
    arithmetic. *)
Theorem X12_metrics_failures (p : profile) :
  (calculate_sleep_metrics p = Raise ValueError <->
     (hour_field (bedtime p) = Raise ValueError \/
      ((exists bh, hour_field (bedtime p) = Ok bh) /\
       hour_field (wakeTime p) = Raise ValueError)))
  /\ (calculate_sleep_metrics p = Raise ZeroDivisionError ->
      is_zero_num (sleepGoal p) = true)
  /\ (forall e, calculate_sleep_metrics p = Raise e ->
        e = ValueError \/ e = ZeroDivisionError \/ e = OverflowError).
Proof.
  rewrite calculate_sleep_metrics_fields.
  destruct (hour_field (bedtime p)) as [bh|eb] eqn:Eb; cbn [bind].
  - destruct (hour_field (wakeTime p)) as [wh|ew] eqn:Ew; cbn [bind].
    + split; [split|].
      * intros H. destruct (metrics_of_hours_raises _ _ _ _ H) as [?|[? _]]; discriminate.
      * intros [H|[_ H]]; discriminate H.
      * split.
        -- intros H. destruct (metrics_of_hours_raises _ _ _ _ H) as [?|[_ ?]];
             [discriminate|assumption].
        -- intros e H. destruct (metrics_of_hours_raises _ _ _ _ H) as [->|[-> _]]; auto.
    + pose proof (hour_field_raises _ _ Ew) as ->.
      split; [split; [intros _; right; split; eauto|reflexivity]|].
      split; [discriminate|]. intros e H. injection H as <-. auto.
  - pose proof (hour_field_raises _ _ Eb) as ->.
    split; [split; [intros _; left; reflexivity|reflexivity]|].
    split; [discriminate|]. intros e H. injection H as <-. auto.
Qed.

(* ===================================================================== *)
(** ** Further properties: the recommendation list and the endpoint *)
(* ===================================================================== *)

Lemma generate_ai_recommendations_returns
    (p : profile) (a : analysis) (recs : list recommendation) :
  generate_ai_recommendations p a = Ok recs ->
  exists h m, hour_field (bedtime p) = Ok h /\ minute_field (bedtime p) = Ok m.
Proof.
  intros H.
  destruct (hour_field (bedtime p)) as [h|e] eqn:Eh.
  - destruct (minute_field (bedtime p)) as [m|e] eqn:Em; [eauto|].
    destruct (generate_ai_recommendations_unparsed p a) as [e' He'];
      [right; eauto|congruence].
  - destruct (generate_ai_recommendations_unparsed p a) as [e' He'];
      [left; eauto|congruence].
Qed.

(** X13.  The list depends on the profile through bedtime and
    sleepIssues only: wakeTime, sleepGoal, lifestyle and the computed
    metrics never change it. *)
Theorem X13_recommendations_read_bedtime_and_issues_only
    (p p' : profile) (a a' : analysis) :
  bedtime p = bedtime p' ->
  sleepIssues p = sleepIssues p' ->
  generate_ai_recommendations p a = generate_ai_recommendations p' a'.
Proof.
  intros Hb Hi. unfold generate_ai_recommendations. rewrite Hb, Hi.
  destruct (calculate_time_offset (bedtime p') (-2) 0); [|reflexivity].
  destruct (calculate_time_offset (bedtime p') (-1) 0); [|reflexivity].
  cbn [bind]. apply issue_specific_bedtime. exact Hb.
Qed.

Lemma X13_on_two_profiles :
  generate_ai_recommendations
    {| bedtime := "23:15"; wakeTime := "07:00"; sleepGoal := PyInt 8;
       lifestyle := "moderate"; sleepIssues := ["temperature"] |}
    {| sleep_duration := 8; sleep_debt := PyInt 0;
       sleep_efficiency := PyInt 100; circadian_alignment := 90 |}
  = generate_ai_recommendations
      {| bedtime := "23:15"; wakeTime := "03:00"; sleepGoal := PyInt 10;
         lifestyle := "active"; sleepIssues := ["temperature"] |}
      {| sleep_duration := 4; sleep_debt := PyInt 6;
         sleep_efficiency := PyInt 40; circadian_alignment := 80 |}.
Proof.
  apply X13_recommendations_read_bedtime_and_issues_only; reflexivity.
Defined.

(** X14.  The list is returned exactly when the first two
    colon-separated fields of bedtime are integer literals: the tags
    never make it fail, and an unreadable bedtime makes it fail even
    when sleepIssues is empty. *)
Theorem X14_recommendations_returned_iff_bedtime_parses (p : profile) (a : analysis) :
  (exists recs, generate_ai_recommendations p a = Ok recs) <->
  ((exists h, hour_field (bedtime p) = Ok h) /\
   (exists m, minute_field (bedtime p) = Ok m)).
Proof.
  split.
  - intros [recs H].
    destruct (generate_ai_recommendations_returns p a recs H) as (h & m & Hh & Hm).
    eauto.
  - intros [[h Hh] [m Hm]].
    rewrite (generate_ai_recommendations_parsed p a h m Hh Hm). eauto.
Qed.

(** X15.  Every list returned has two entries plus one per known tag of
    sleepIssues; its first two ids are "wind-down" and "screen-cutoff",
    the others are "anxiety-relief" or "temperature-control", and every
    entry has priority "high". *)
Theorem X15_shape_of_the_list
    (p : profile) (a : analysis) (recs : list recommendation) :
  generate_ai_recommendations p a = Ok recs ->
  List.length recs = (2 + List.length (filter known_issue (sleepIssues p)))%nat /\
  map id (firstn 2 recs) = ["wind-down"; "screen-cutoff"] /\
  Forall (fun r => id r = "anxiety-relief" \/ id r = "temperature-control")
         (skipn 2 recs) /\
  Forall (fun r => priority r = "high") recs.
Proof.
  intros H.
  destruct (generate_ai_recommendations_returns p a recs H) as (h & m & Hh & Hm).
  rewrite (generate_ai_recommendations_parsed p a h m Hh Hm) in H.
  apply Ok_inj in H. subst recs.
  set (ta := offset_fields h m (-1) 30). set (tt := offset_fields h m (-1) 0).
  clearbody ta tt. cbn [firstn skipn map List.length Nat.add].
  split; [|split; [reflexivity|split]].
  - do 2 f_equal.
    induction (sleepIssues p) as [|issue rest IH]; [reflexivity|].
    cbn [flat_map filter]. rewrite length_app, IH.
    unfold issue_entry, known_issue.
    destruct (String.eqb issue "anxiety"); [reflexivity|].
    destruct (String.eqb issue "temperature"); reflexivity.
  - apply Forall_forall. intros r Hr. apply in_flat_map in Hr.
    destruct Hr as (issue & _ & Hr). unfold issue_entry in Hr.
    destruct (String.eqb issue "anxiety");
      [destruct Hr as [<-|[]]; left; reflexivity|].
    destruct (String.eqb issue "temperature");
      [destruct Hr as [<-|[]]; right; reflexivity|destruct Hr].
  - do 2 (constructor; [reflexivity|]).
    apply Forall_forall. intros r Hr. apply in_flat_map in Hr.
    destruct Hr as (issue & _ & Hr). unfold issue_entry in Hr.
    destruct (String.eqb issue "anxiety"); [destruct Hr as [<-|[]]; reflexivity|].
    destruct (String.eqb issue "temperature");
      [destruct Hr as [<-|[]]; reflexivity|destruct Hr].
Qed.

Lemma X15_on_the_test_script_profile :
  exists recs,
    generate_ai_recommendations
      {| bedtime := "22:30"; wakeTime := "06:30"; sleepGoal := PyInt 8;
         lifestyle := "moderate"; sleepIssues := ["anxiety"; "screen-time"] |}
      {| sleep_duration := 8; sleep_debt := PyInt 0;
         sleep_efficiency := PyInt 100; circadian_alignment := 100 |} = Ok recs /\
    List.length recs = 3%nat /\
    Forall (fun r => priority r = "high") recs.
Proof.
  eexists. split; [vm_compute; reflexivity|].
  match goal with
  | |- List.length ?l = _ /\ _ =>
      destruct (X15_shape_of_the_list
                  {| bedtime := "22:30"; wakeTime := "06:30"; sleepGoal := PyInt 8;
                     lifestyle := "moderate";
                     sleepIssues := ["anxiety"; "screen-time"] |}
                  {| sleep_duration := 8; sleep_debt := PyInt 0;
                     sleep_efficiency := PyInt 100; circadian_alignment := 100 |}
                  l) as (Hl & _ & _ & Hp); [vm_compute; reflexivity|]
  end.
  split; [exact Hl|exact Hp].
Defined.

(** X16.  Tags are handled one after the other, in input order: the list
    for the tags [l1 ++ l2] is the list for [l1] followed by the
    issue-specific entries of the list for [l2]. *)
Theorem X16_issue_lists_compose
    (p : profile) (a : analysis) (l1 l2 : list string)
    (r1 r2 : list recommendation) :
  generate_ai_recommendations (with_issues p l1) a = Ok r1 ->
  generate_ai_recommendations (with_issues p l2) a = Ok r2 ->
  generate_ai_recommendations (with_issues p (l1 ++ l2)) a = Ok (r1 ++ skipn 2 r2).
Proof.
  intros H1 H2.
  destruct (generate_ai_recommendations_returns _ a r1 H1) as (h & m & Hh & Hm).
  cbn [with_issues bedtime] in Hh, Hm.
  rewrite (generate_ai_recommendations_parsed (with_issues p l1) a h m Hh Hm) in H1.
  rewrite (generate_ai_recommendations_parsed (with_issues p l2) a h m Hh Hm) in H2.
  rewrite (generate_ai_recommendations_parsed (with_issues p (l1 ++ l2)) a h m Hh Hm).
  apply Ok_inj in H1, H2. subst r1 r2.
  cbn [with_issues sleepIssues skipn app]. rewrite flat_map_app. reflexivity.
Qed.

Lemma X16_on_two_tag_lists :
  generate_ai_recommendations
    (with_issues
       {| bedtime := "21:40"; wakeTime := "06:00"; sleepGoal := PyInt 8;
          lifestyle := "moderate"; sleepIssues := [] |}
       (["anxiety"] ++ ["temperature"; "anxiety"]))
    {| sleep_duration := 9; sleep_debt := PyInt 0;
       sleep_efficiency := PyInt 100; circadian_alignment := 95 |}
  = Ok ([wind_down "19:40"; screen_cutoff "20:40"; anxiety_relief "21:10"]
        ++ skipn 2 [wind_down "19:40"; screen_cutoff "20:40";
                    temperature_control "20:40"; anxiety_relief "21:10"]).
Proof.
  apply X16_issue_lists_compose; vm_compute; reflexivity.
Defined.


(** X18.  A request that names none of bedtime, wakeTime and sleepGoal
    is evaluated on the defaults 22:00, 06:00 and 8: the answer is a
    success with duration 8, debt 0, efficiency 100 and alignment 100,
    and a list that opens at 20:00 and 21:00. *)
Theorem X18_missing_keys_take_defaults (data : request_data) :
  is_empty data = false ->
  get_bedtime data = None -> get_wakeTime data = None -> get_sleepGoal data = None ->
  analyze_sleep_profile data
  = mk_response 200
      (ProfileSuccess (extract_profile data)
         {| sleep_duration := 8; sleep_debt := PyInt 0;
            sleep_efficiency := PyInt 100; circadian_alignment := 100 |}
         (wind_down "20:00" :: screen_cutoff "21:00"
          :: flat_map (issue_entry "21:30" "21:00") (sleepIssues (extract_profile data)))).
Proof.
  intros Hne Hb Hw Hg. unfold analyze_sleep_profile. rewrite Hne.
  set (p := extract_profile data).
  assert (Eb : bedtime p = "22:00") by (unfold p, extract_profile; rewrite Hb; reflexivity).
  assert (Ew : wakeTime p = "06:00") by (unfold p, extract_profile; rewrite Hw; reflexivity).
  assert (Eg : sleepGoal p = PyInt 8) by (unfold p, extract_profile; rewrite Hg; reflexivity).
  assert (Em : calculate_sleep_metrics p = Ok
             {| sleep_duration := 8; sleep_debt := PyInt 0;
                sleep_efficiency := PyInt 100; circadian_alignment := 100 |}).
  { unfold calculate_sleep_metrics. rewrite Eb, Ew, Eg. vm_compute. reflexivity. }
  rewrite Em. cbn [bind].
  rewrite (generate_ai_recommendations_parsed p _ 22 0)
    by (rewrite Eb; reflexivity).
  reflexivity.
Qed.

Lemma X18_on_a_request_with_tags_only :
  analyze_sleep_profile
    {| get_bedtime := None; get_wakeTime := None; get_sleepGoal := None;
       get_lifestyle := None; get_sleepIssues := Some ["temperature"];
       other_keys := false |}
  = mk_response 200
      (ProfileSuccess
         {| bedtime := "22:00"; wakeTime := "06:00"; sleepGoal := PyInt 8;
            lifestyle := "moderate"; sleepIssues := ["temperature"] |}
         {| sleep_duration := 8; sleep_debt := PyInt 0;
            sleep_efficiency := PyInt 100; circadian_alignment := 100 |}
         [wind_down "20:00"; screen_cutoff "21:00"; temperature_control "21:00"]).
Proof.
  apply (X18_missing_keys_take_defaults
           {| get_bedtime := None; get_wakeTime := None; get_sleepGoal := None;
              get_lifestyle := None; get_sleepIssues := Some ["temperature"];
              other_keys := false |}); reflexivity.
Defined.

(* ===================================================================== *)
(** ** Further properties: the filtered insights *)
(* ===================================================================== *)

Lemma filter_length_le_list {A : Type} (f : A -> bool) (l : list A) :
  (List.length (filter f l) <= List.length l)%nat.
Proof.
  induction l as [|x l IH]; [apply le_n|].
  cbn [filter]. destruct (f x); cbn [List.length]; lia.
Qed.

(** X19.  The answer of the insights endpoint depends on the gender
    argument through its lower-cased form only: two spellings that agree
    up to case give the same answer, whatever the table. *)
Theorem X19_insights_ignore_case_of_gender
    (mean : list float -> float) (round_to : float -> Z -> float)
    (csv : option (list sleep_record)) (age : Z) (gender gender' : string) :
  lower gender = lower gender' ->
  get_personalized_insights mean round_to csv age gender
  = get_personalized_insights mean round_to csv age gender'.
Proof.
  intros H. unfold get_personalized_insights. destruct csv as [df|]; [|reflexivity].
  assert (E : select_records df age gender = select_records df age gender').
  { unfold select_records, filter_gender. rewrite H. reflexivity. }
  rewrite E. reflexivity.
Qed.

Lemma X19_on_male_and_MALE :
  let row a g :=
    {| Age := a; Gender := g;
       Total_Sleep_Hours := S754_zero false; Sleep_Quality := S754_zero false;
       Productivity_Score := S754_zero false; Mood_Score := S754_zero false;
       Stress_Level := S754_zero false |} in
  get_personalized_insights (fun _ => S754_zero false) (fun f _ => f)
    (Some [row 25 "Male"; row 31 "Female"]) 30 "male"
  = get_personalized_insights (fun _ => S754_zero false) (fun f _ => f)
      (Some [row 25 "Male"; row 31 "Female"]) 30 "MALE".
Proof.
  cbv zeta. apply X19_insights_ignore_case_of_gender. reflexivity.
Defined.

(** X20.  Naming a gender only narrows the selection: the rows selected
    for a gender are rows selected for "all", so the sample is no
    larger, and whenever a gender is answered 200 so is "all". *)
Theorem X20_gender_narrows_the_selection
    (mean : list float -> float) (round_to : float -> Z -> float)
    (df : list sleep_record) (age : Z) (gender : string) :
  incl (select_records df age gender) (select_records df age "all")
  /\ (List.length (select_records df age gender)
      <= List.length (select_records df age "all"))%nat
  /\ (List.length (select_records df age "all") <= List.length df)%nat
  /\ (status (get_personalized_insights mean round_to (Some df) age gender) = 200 ->
      status (get_personalized_insights mean round_to (Some df) age "all") = 200).
Proof.
  assert (Hall : select_records df age "all" = filter_age df age) by reflexivity.
  assert (Hsub : select_records df age gender = filter_age df age \/
                 select_records df age gender
                 = filter_gender (filter_age df age) gender).
  { unfold select_records. destruct (negb _); auto. }
  assert (Hlen : (List.length (select_records df age gender)
                  <= List.length (filter_age df age))%nat).
  { destruct Hsub as [->| ->]; [apply le_n|apply filter_length_le_list]. }
  rewrite Hall.
  split.
  { destruct Hsub as [->| ->]; [apply incl_refl|].
    intros r Hr. unfold filter_gender in Hr. apply filter_In in Hr. apply Hr. }
  split; [exact Hlen|].
  split; [apply filter_length_le_list|].
  unfold get_personalized_insights. rewrite Hall.
  destruct (select_records df age gender) as [|r l]; [discriminate|].
  cbn [List.length] in Hlen.
  destruct (filter_age df age) as [|r' l']; [cbn in Hlen; lia|].
  intros _. cbn [List.length]. rewrite Nat2Z.inj_succ.
  destruct (Z.eqb_spec (Z.succ (Z.of_nat (List.length l'))) 0); [lia|reflexivity].
Qed.


Lemma lt_float_int_order (f : float) (a b : Z) :
  Py.lt (PyFloat f) (PyInt a) = true -> Py.lt (PyInt b) (PyFloat f) = true -> b < a.
Proof.
  unfold Py.lt, Py.compare, compare_float_int.
  destruct f as [s|s| |s m e]; cbn [option_map]; try discriminate.
  - destruct (Z.compare_spec 0 a); try discriminate.
    destruct (Z.compare_spec 0 b); cbn [CompOpp]; try discriminate. lia.
  - destruct s; cbn [CompOpp]; discriminate.
  - set (v := cond_Zopp s (Z.pos m)). clearbody v.
    destruct (0 <=? e) eqn:E.
    + destruct (Z.compare_spec (v * 2 ^ e) a); try discriminate.
      destruct (Z.compare_spec (v * 2 ^ e) b); cbn [CompOpp]; try discriminate. lia.
    + apply Z.leb_gt in E.
      pose proof (Z.pow_pos_nonneg 2 (- e) ltac:(lia) ltac:(lia)).
      destruct (Z.compare_spec v (a * 2 ^ (- e))); try discriminate.
      destruct (Z.compare_spec v (b * 2 ^ (- e))); cbn [CompOpp]; try discriminate.
      intros _ _. nia.
Qed.


Lemma rule_conditions_check_sound (out : list string) (b1 b2 b3 b5 b6 b7 b8 : bool) :
  Bool.eqb (mem rule_sleep_short out) b1
  && Bool.eqb (mem rule_sleep_long out) b2
  && Bool.eqb (mem rule_quality_environment out) b3
  && Bool.eqb (mem rule_quality_routine out) b3
  && Bool.eqb (mem rule_productivity_high out) b5
  && Bool.eqb (mem rule_productivity_low out) b6
  && Bool.eqb (mem rule_age_young out) b7
  && Bool.eqb (mem rule_age_older out) b8
  && (List.length out <=? 5)%nat = true ->
  (In rule_sleep_short out <-> b1 = true) /\
  (In rule_sleep_long out <-> b2 = true) /\
  (In rule_quality_environment out <-> b3 = true) /\
  (In rule_quality_routine out <-> b3 = true) /\
  (In rule_productivity_high out <-> b5 = true) /\
  (In rule_productivity_low out <-> b6 = true) /\
  (In rule_age_young out <-> b7 = true) /\
  (In rule_age_older out <-> b8 = true) /\
  (List.length out <= 5)%nat.
Proof.
  rewrite !andb_true_iff, <- !mem_In.
  intros ((((((((H1 & H2) & H3) & H4) & H5) & H6) & H7) & H8) & H9).
  apply Bool.eqb_prop in H1, H2, H3, H4, H5, H6, H7, H8.
  apply Nat.leb_le in H9.
  rewrite H1, H2, H3, H4, H5, H6, H7, H8. tauto.
Qed.

(** X22.  Each line of the rule table appears exactly when its own
    condition holds: the branches written with elif never hide a line
    whose condition is true.  At most five lines are returned. *)
Theorem X22_each_rule_fires_on_its_own_condition
    (mean : list float -> float)
    (df : list sleep_record) (age : Z) (gender : string) :
  let out := generate_recommendations mean df age gender in
  let avg_sleep := PyFloat (mean (map Total_Sleep_Hours df)) in
  let avg_quality := PyFloat (mean (map Sleep_Quality df)) in
  let avg_productivity := PyFloat (mean (map Productivity_Score df)) in
  (In rule_sleep_short out <-> Py.lt avg_sleep (PyInt 7) = true) /\
  (In rule_sleep_long out <-> Py.lt (PyInt 9) avg_sleep = true) /\
  (In rule_quality_environment out <-> Py.lt avg_quality (PyInt 7) = true) /\
  (In rule_quality_routine out <-> Py.lt avg_quality (PyInt 7) = true) /\
  (In rule_productivity_high out <-> Py.lt (PyInt 85) avg_productivity = true) /\
  (In rule_productivity_low out <-> Py.lt avg_productivity (PyInt 75) = true) /\
  (In rule_age_young out <-> age < 30) /\
  (In rule_age_older out <-> 50 < age) /\
  (List.length out <= 5)%nat.
Proof.
  cbv zeta. rewrite <- (Z.ltb_lt age 30), <- (Z.ltb_lt 50 age).
  apply rule_conditions_check_sound.
  unfold generate_recommendations. cbv zeta.
  generalize (mean (map Total_Sleep_Hours df)) (mean (map Sleep_Quality df))
             (mean (map Productivity_Score df)).
  intros s q p.
  pose proof (lt_float_int_order s 7 9) as Hs.
  pose proof (lt_float_int_order p 75 85) as Hp.
  assert (Ha : (age <? 30) = true -> (50 <? age) = true -> False).
  { rewrite !Z.ltb_lt. lia. }
  destruct (Py.lt (PyFloat s) (PyInt 7)); destruct (Py.lt (PyInt 9) (PyFloat s));
    try (exfalso; specialize (Hs eq_refl eq_refl); lia); clear Hs;
    (destruct (Py.lt (PyFloat q) (PyInt 7));
     (destruct (Py.lt (PyInt 85) (PyFloat p)); destruct (Py.lt (PyFloat p) (PyInt 75));
        try (exfalso; specialize (Hp eq_refl eq_refl); lia); clear Hp;
      (destruct (age <? 30); destruct (50 <? age);
         try (exfalso; apply Ha; reflexivity); clear Ha;
       vm_compute; reflexivity))).
Qed.
